(** * Validation and execution of generated code in the Excel chatbot (src/tools.py)

    A shallow embedding of [validate_expression] and of the tool function
    [_tool] built by [generate_and_execute_pandas_code], with the
    properties of the two stated and proved over the embedding.

    The host language supplies three things the code calls but does not
    define: the parser ([ast.parse]), the byte-compiler ([compile]) and the
    interpreter ([exec]).  They are taken as functions of an environment
    record; [ast.walk], [str.strip], [str.replace], the substring test and
    the exception classes are written out. *)

From Stdlib Require Import Ascii String.
From stdpp Require Import base gmap strings list pretty.

Set Warnings "-register-all".

(** ** Text: the [str] methods the code uses.

    Text is modelled as ASCII; [isspace] lists the ASCII code points for
    which Python's [str.isspace] holds. *)
Module str.

Definition isspace (c : ascii) : bool :=
  let n := nat_of_ascii c in
  ((9 <=? n)%nat && (n <=? 13)%nat) || ((28 <=? n)%nat && (n <=? 32)%nat).

Fixpoint lstrip (s : string) : string :=
  match s with
  | EmptyString => EmptyString
  | String c r => if isspace c then lstrip r else s
  end.

Fixpoint rstrip (s : string) : string :=
  match s with
  | EmptyString => EmptyString
  | String c r =>
      match rstrip r with
      | EmptyString => if isspace c then EmptyString else String c EmptyString
      | r' => String c r'
      end
  end.

(** [s.strip()] *)
Definition strip (s : string) : string := rstrip (lstrip s).

(** [sub in s] *)
Fixpoint contains (sub s : string) : bool :=
  String.prefix sub s ||
  match s with
  | EmptyString => false
  | String _ r => contains sub r
  end.

(** [s.replace(old, new)] for a non-empty [old], as at both call sites:
    occurrences are replaced from the left and do not overlap; [skip]
    counts the characters of a matched occurrence still to be dropped. *)
Fixpoint replace_from (old new : string) (skip : nat) (s : string) : string :=
  match s with
  | EmptyString => EmptyString
  | String c r =>
      match skip with
      | S k => replace_from old new k r
      | O =>
          if String.prefix old s
          then new +:+ replace_from old new (String.length old - 1) r
          else String c (replace_from old new 0 r)
      end
  end.

Definition replace (old new s : string) : string := replace_from old new 0 s.

Definition lower_char (c : ascii) : ascii :=
  let n := nat_of_ascii c in
  if (65 <=? n)%nat && (n <=? 90)%nat then ascii_of_nat (n + 32) else c.

(** [s.lower()] on ASCII text *)
Fixpoint lower (s : string) : string :=
  match s with
  | EmptyString => EmptyString
  | String c r => String (lower_char c) (lower r)
  end.

(** Every character of [s] is whitespace ([s] may be empty). *)
Fixpoint whitespace_only (s : string) : bool :=
  match s with
  | EmptyString => true
  | String c r => isspace c && whitespace_only r
  end.

Definition first_char (s : string) : option ascii :=
  match s with
  | EmptyString => None
  | String c _ => Some c
  end.

Fixpoint last_char (s : string) : option ascii :=
  match s with
  | EmptyString => None
  | String c EmptyString => Some c
  | String _ r => last_char r
  end.

End str.

(** ** Exceptions of the host language.

    The classes the code raises or filters on, with their ancestors:
    [mro c] lists [c] and its base classes up to [BaseException]. *)
Inductive exc_class :=
| BaseException
| SystemExit
| KeyboardInterrupt
| GeneratorExit
| Exception
| ArithmeticError
| ZeroDivisionError
| AttributeError
| LookupError
| KeyError
| NameError
| RuntimeError
| RecursionError
| MemoryError
| SyntaxError
| IndentationError
| TypeError
| ValueError
| LibraryError (name : string).  (* a class defined by a library, derived from Exception *)

#[global] Instance exc_class_eq_dec : EqDecision exc_class.
Proof. solve_decision. Defined.

Definition mro (c : exc_class) : list exc_class :=
  match c with
  | BaseException => [BaseException]
  | SystemExit | KeyboardInterrupt | GeneratorExit => [c; BaseException]
  | Exception => [Exception; BaseException]
  | ZeroDivisionError => [c; ArithmeticError; Exception; BaseException]
  | KeyError => [c; LookupError; Exception; BaseException]
  | RecursionError => [c; RuntimeError; Exception; BaseException]
  | IndentationError => [c; SyntaxError; Exception; BaseException]
  | ArithmeticError | AttributeError | LookupError | NameError | RuntimeError
  | MemoryError | SyntaxError | TypeError | ValueError | LibraryError _ =>
      [c; Exception; BaseException]
  end.

Definition issubclass (c d : exc_class) : bool := bool_decide (d ∈ mro c).

(** An exception object: its class and [str(e)]. *)
Record exn := Exn { exc_type : exc_class; exc_str : string }.

(** [isinstance(e, c)], the test of an [except c] clause. *)
Definition isinstance (e : exn) (c : exc_class) : bool := issubclass (exc_type e) c.

(** The outcome of a call: a value, or an exception on its way up. *)
Inductive result (A : Type) :=
| Return (a : A)
| Raise (e : exn).
Arguments Return {A} a.
Arguments Raise {A} e.

(** ** Syntax trees: the [ast] module.

    The node classes the validator dispatches on, and those the worked programs
    use, have a constructor each with the fields of the class; every other
    class is [Other], which keeps the class name and the child nodes in
    field order.  Fields that hold no node (type comments, the [kind] of a
    constant, the empty [type_ignores] of a module) are left out. *)
Module ast.

Inductive expr_context := Load | Store | Del.

Inductive operator := Add | Sub | Mult | Div | FloorDiv | Mod | Pow.

Inductive constant :=
| CNone
| CBool (b : bool)
| CInt (z : Z)
| CStr (s : string)
| COther (repr : string).

Inductive node :=
| Module_ (body : list node)
| Expr (value : node)
| Assign (targets : list node) (value : node)
| Delete (targets : list node)
| Import (names : list node)
| ImportFrom (module : option string) (names : list node) (level : Z)
| alias (name : string) (asname : option string)
| If (test : node) (body orelse : list node)
| Name (id : string) (ctx : expr_context)
| Attribute (value : node) (attr : string) (ctx : expr_context)
| Call (func : node) (args keywords : list node)
| keyword (arg : option string) (value : node)
| Constant (value : constant)
| BinOp (left : node) (op : operator) (right : node)
| Subscript (value slice : node) (ctx : expr_context)
| Context (c : expr_context)
| Operator (o : operator)
| Other (cls : string) (children : list node).

(** [ast.iter_child_nodes]: the direct children, in field order. *)
Definition iter_child_nodes (n : node) : list node :=
  match n with
  | Module_ body => body
  | Expr value => [value]
  | Assign targets value => targets ++ [value]
  | Delete targets => targets
  | Import names => names
  | ImportFrom _ names _ => names
  | alias _ _ => []
  | If test body orelse => test :: body ++ orelse
  | Name _ ctx => [Context ctx]
  | Attribute value _ ctx => [value; Context ctx]
  | Call func args keywords => func :: args ++ keywords
  | keyword _ value => [value]
  | Constant _ => []
  | BinOp lhs op rhs => [lhs; Operator op; rhs]
  | Subscript value slice ctx => [value; slice; Context ctx]
  | Context _ => []
  | Operator _ => []
  | Other _ children => children
  end.

(** [type(node).__name__] *)
Definition class_name (n : node) : string :=
  match n with
  | Module_ _ => "Module"
  | Expr _ => "Expr"
  | Assign _ _ => "Assign"
  | Delete _ => "Delete"
  | Import _ => "Import"
  | ImportFrom _ _ _ => "ImportFrom"
  | alias _ _ => "alias"
  | If _ _ _ => "If"
  | Name _ _ => "Name"
  | Attribute _ _ _ => "Attribute"
  | Call _ _ _ => "Call"
  | keyword _ _ => "keyword"
  | Constant _ => "Constant"
  | BinOp _ _ _ => "BinOp"
  | Subscript _ _ _ => "Subscript"
  | Context Load => "Load"
  | Context Store => "Store"
  | Context Del => "Del"
  | Operator Add => "Add"
  | Operator Sub => "Sub"
  | Operator Mult => "Mult"
  | Operator Div => "Div"
  | Operator FloorDiv => "FloorDiv"
  | Operator Mod => "Mod"
  | Operator Pow => "Pow"
  | Other cls _ => cls
  end.

(** The number of nodes of a tree. *)
Fixpoint size (n : node) : nat :=
  match n with
  | Module_ body => S (list_sum (map size body))
  | Expr value => S (size value)
  | Assign targets value => S (list_sum (map size targets) + size value)
  | Delete targets => S (list_sum (map size targets))
  | Import names => S (list_sum (map size names))
  | ImportFrom _ names _ => S (list_sum (map size names))
  | alias _ _ => 1
  | If test body orelse =>
      S (size test + list_sum (map size body) + list_sum (map size orelse))
  | Name _ _ => 2
  | Attribute value _ _ => S (size value + 1)
  | Call func args keywords =>
      S (size func + list_sum (map size args) + list_sum (map size keywords))
  | keyword _ value => S (size value)
  | Constant _ => 1
  | BinOp lhs _ rhs => S (size lhs + 1 + size rhs)
  | Subscript value slice _ => S (size value + size slice + 1)
  | Context _ => 1
  | Operator _ => 1
  | Other _ children => S (list_sum (map size children))
  end.

(** [ast.walk]: the queue loop

      todo = deque([node])
      while todo:
          node = todo.popleft()
          todo.extend(iter_child_nodes(node))
          yield node

    Each turn of the loop removes one node for good, so [size] turns
    empty the queue ([walk_loop_fuel] below). *)
Fixpoint walk_loop (fuel : nat) (todo : list node) : list node :=
  match fuel with
  | O => []
  | S fuel' =>
      match todo with
      | [] => []
      | n :: rest => n :: walk_loop fuel' (rest ++ iter_child_nodes n)
      end
  end.

Definition walk (n : node) : list node := walk_loop (size n) [n].

(** [n] occurs in the tree [t]: it is [t] or occurs in a child of [t]. *)
Inductive occurs_in (n : node) : node -> Prop :=
| occurs_here : occurs_in n n
| occurs_below c p : In c (iter_child_nodes p) -> occurs_in n c -> occurs_in n p.

End ast.

(** ** The validator: [validate_expression] *)

Definition PROHIBITED_MODULES : gset string :=
  {[ "os"; "subprocess"; "shutil"; "sys"; "builtins"; "socket" ]}.

Definition PROHIBITED_FUNCTIONS : gset string :=
  {[ "eval"; "exec"; "open"; "compile"; "__import__"; "getattr"; "input" ]}.

Definition import_reason : string := "Expression not valid. Import not allowed.".
Definition module_reason : string := "Expression not valid. Module not allowed.".
Definition hazard_reason (name : string) : string :=
  "Expression not valid. Hazardous expression detected: " +:+ name.

(** The body of the loop over [ast.walk(tree)] for one node: the
    [ValueError] it raises, if any. *)
Definition check_node (node : ast.node) : option exn :=
  match node with
  | ast.Import _ | ast.ImportFrom _ _ _ => Some (Exn ValueError import_reason)
  | ast.Name id _ =>
      if bool_decide (id ∈ PROHIBITED_MODULES)
      then Some (Exn ValueError module_reason)
      else None
  | ast.Call func _ _ =>
      match func with
      | ast.Name id _ =>
          if bool_decide (id ∈ PROHIBITED_FUNCTIONS)
          then Some (Exn ValueError (hazard_reason id))
          else None
      | ast.Attribute _ attr _ =>
          if bool_decide (attr ∈ PROHIBITED_FUNCTIONS) || str.contains "__" attr
          then Some (Exn ValueError (hazard_reason attr))
          else None
      | _ => None
      end
  | _ => None
  end.

(** The [for] loop: the first node that raises ends it. *)
Fixpoint check_nodes (nodes : list ast.node) : option exn :=
  match nodes with
  | [] => None
  | node :: rest =>
      match check_node node with
      | Some e => Some e
      | None => check_nodes rest
      end
  end.

Section Validator.

(** [ast.parse(expression, mode='exec')]: the tree, or the exception the
    parser raises. *)
Variable ast_parse : string -> result ast.node.

Definition validate_expression (expression : string) : result ast.node :=
  match ast_parse expression with
  | Raise e =>
      if isinstance e SyntaxError
      then Raise (Exn ValueError ("Expression not valid: " +:+ exc_str e))
      else Raise e
  | Return tree =>
      match check_nodes (ast.walk tree) with
      | Some e => Raise e
      | None => Return tree
      end
  end.

End Validator.

(** ** Values, namespaces and the interpreter state *)

(** Objects that are shared and can change (the dataset mapping, a module,
    a text buffer) are known by a location; a namespace maps names to
    values. *)
Definition loc := nat.

Inductive value :=
| VNone
| VInt (z : Z)
| VStr (s : string)
| VOpaque (repr : string)          (* an immutable object, known by what [str] gives for it *)
| VFunction (qualname : string)    (* a built-in function, type or method object *)
| VDict (d : gmap string value)    (* a dict literal held by value *)
| VRef (l : loc)                   (* a reference to a shared object *)
| VMethod (self : loc) (name : string).  (* a method bound to a shared object *)

(** A compiled unit, known by the tree it was compiled from. *)
Record code := Code { co_tree : ast.node }.

Section Executor.

(** The heap of the interpreter: every object a running program can
    reach through [df] and [pd]. *)
Context {W : Type}.

(** [sys_stdout] is the object bound to [sys.stdout]; [files] holds the
    text written so far to each file-like object, the real standard
    output among them; a new [StringIO] is the next index. *)
Record State := mkState {
  sys_stdout : loc;
  files : list string;
  heap : W
}.

(** What the tool takes from the host: parser, compiler, interpreter,
    the [pd] module object, the prompt template instantiated
    ([code_prompt_templ.format]) and the working directory. *)
Record Host := mkHost {
  ast_parse : string -> result ast.node;
  compile : ast.node -> result code;
  exec : code -> gmap string value -> gmap string value -> State -> result unit * State;
  pd : value;
  format_prompt : string -> string -> string -> string -> string;
  getcwd : string
}.

Definition with_exec (H : Host)
    (exec' : code -> gmap string value -> gmap string value -> State -> result unit * State)
    : Host :=
  mkHost (ast_parse H) (compile H) exec' (pd H) (format_prompt H) (getcwd H).

(** Statements run in a state and may raise. *)
Definition M (A : Type) : Type := State -> result A * State.

Definition ret {A} (a : A) : M A := fun st => (Return a, st).
Definition raise {A} (e : exn) : M A := fun st => (Raise e, st).
Definition lift {A} (r : result A) : M A := fun st => (r, st).

Definition bind {A B} (m : M A) (k : A -> M B) : M B :=
  fun st =>
    match m st with
    | (Return a, st') => k a st'
    | (Raise e, st') => (Raise e, st')
    end.

(** [try: body except c as e: handler e] *)
Definition try_except {A} (body : M A) (c : exc_class) (handler : exn -> M A) : M A :=
  fun st =>
    match body st with
    | (Raise e, st') => if isinstance e c then handler e st' else (Raise e, st')
    | r => r
    end.

Definition get_stdout : M loc := fun st => (Return (sys_stdout st), st).

Definition set_stdout (f : loc) : M unit :=
  fun st => (Return tt, mkState f (files st) (heap st)).

(** [StringIO()]: a new, empty buffer. *)
Definition StringIO : M loc :=
  fun st => (Return (length (files st)), mkState (sys_stdout st) (files st ++ [""]) (heap st)).

(** [f.getvalue()] *)
Definition getvalue (f : loc) : M string :=
  fun st => (Return (default "" (files st !! f)), st).

End Executor.

Arguments State : clear implicits.
Arguments Host : clear implicits.
Arguments M : clear implicits.

(** ** The executor: the tool function [_tool] *)

Definition no_output_message : string :=
  "Code was executed, but it did not produced a visible output.".

Definition error_message (e : exn) (generated_code : string) : string :=
  "Error executing Pandas code: " +:+ exc_str e +:+ "
Generated code:
" +:+ generated_code.

(** A dict display: the items are stored in order into a new dict. *)
Definition dict_literal (items : list (string * value)) : gmap string value :=
  foldl (fun d kv => <[kv.1 := kv.2]> d) ∅ items.

Definition safe_builtins : gmap string value :=
  dict_literal
    [ ("print", VFunction "print");
      ("len", VFunction "len");
      ("range", VFunction "range");
      ("str", VFunction "str");
      ("int", VFunction "int");
      ("float", VFunction "float");
      ("list", VFunction "list");
      ("dict", VFunction "dict");
      ("set", VFunction "set");
      ("min", VFunction "min");
      ("max", VFunction "max");
      ("sum", VFunction "sum");
      ("enumerate", VFunction "enumerate");
      ("zip", VFunction "zip") ].

Definition safe_globals (data pd : value) : gmap string value :=
  dict_literal
    [ ("__builtins__", VDict safe_builtins);
      ("df", data);
      ("pd", pd) ].

Definition safe_locals : gmap string value := ∅.

(** [generated_code.replace("```python", "").replace("```", "").strip()] *)
Definition adapt (response : string) : string :=
  str.strip (str.replace "```" "" (str.replace "```python" "" response)).

Declare Scope py_scope.
Delimit Scope py_scope with py.
Notation "'let!' x ':=' m 'in' k" := (bind m (fun x => k))
  (at level 10, x pattern, m at level 100, k at level 200) : py_scope.
Notation "m ';;' k" := (bind m (fun _ => k))
  (at level 100, k at level 200, right associativity) : py_scope.

Section Tool.

Context {W : Type}.
Variable H : Host W.

(** The arguments of [generate_and_execute_pandas_code], which [_tool]
    closes over; [code_llm] is [code_llm.invoke(prompt).content]. *)
Variable data : value.
Variable preview : string.
Variable columns_context : string.
Variable code_llm : string -> result string.

Local Open Scope py_scope.

(** The body of [_tool] from the validation on.  [old_stdout] is read
    before the second [try] is entered, where the source reads it as the
    first statement inside: reading it cannot raise, and the handler
    needs it. *)
Definition execute_generated_code (generated_code : string) : M W string :=
  let! compiled_expression :=
    try_except
      (let! tree := lift (validate_expression (ast_parse H) generated_code) in
       lift (compile H tree))
      ValueError
      (fun e => raise (Exn RuntimeError ("Code not allowed: " +:+ exc_str e))) in
  let! old_stdout := get_stdout in
  try_except
    (let! redirected_output := StringIO in
     set_stdout redirected_output ;;
     exec H compiled_expression (safe_globals data (pd H)) safe_locals ;;
     let! output := getvalue redirected_output in
     set_stdout old_stdout ;;
     if String.eqb (str.strip output) ""
     then ret no_output_message
     else ret (str.strip output))
    Exception
    (fun e =>
       set_stdout old_stdout ;;
       ret (error_message e generated_code)).

Definition _tool (user_query : string) : M W string :=
  let prompt := format_prompt H preview columns_context user_query (getcwd H) in
  let! generated_code := lift (code_llm prompt) in
  let generated_code := adapt generated_code in
  execute_generated_code generated_code.

End Tool.

(** ** Vocabulary of the properties *)

(** The state in which the candidate runs: a new empty buffer has been
    made and [sys.stdout] is bound to it. *)
Definition redirected {W} (st : State W) : State W :=
  mkState (length (files st)) (files st ++ [""]) (heap st).

(** [redirected_output.getvalue()] once the interpreter has left [st']. *)
Definition captured {W} (st st' : State W) : string :=
  default "" (files st' !! length (files st)).

(** [st'] with [sys.stdout] bound again to what it was in [st]. *)
Definition restored {W} (st st' : State W) : State W :=
  mkState (sys_stdout st) (files st') (heap st').


(** A reason mentions import, in either case of the letters. *)
Definition mentions_import (reason : string) : bool :=
  str.contains "import" (str.lower reason).

Definition is_import (n : ast.node) : bool :=
  match n with
  | ast.Import _ | ast.ImportFrom _ _ _ => true
  | _ => false
  end.

Definition is_attribute (n : ast.node) : bool :=
  match n with
  | ast.Attribute _ _ _ => true
  | _ => false
  end.

(** The attribute accesses of a tree, in the order of the walk. *)
Definition attribute_accesses (tree : ast.node) : list ast.node :=
  List.filter is_attribute (ast.walk tree).

(** Calls of the tool one after another, each in the state the one
    before left. *)
Fixpoint tool_calls {W} (tool : string -> M W string) (queries : list string)
    (st : State W) : list (result string) * State W :=
  match queries with
  | [] => ([], st)
  | q :: rest =>
      let '(r, st1) := tool q st in
      let '(rs, st2) := tool_calls tool rest st1 in
      (r :: rs, st2)
  end.

(** ** Interpreters that only print

    An interpreter that touches the standard output only by writing to
    whatever [sys.stdout] is bound to, and otherwise works on the heap, is
    given by what it raises, what it prints and the heap it leaves. *)
Definition exec_of {W : Type}
    (run : code -> gmap string value -> gmap string value -> W -> result unit * string * W)
    : code -> gmap string value -> gmap string value -> State W -> result unit * State W :=
  fun c g l st =>
    let '(r, printed, w) := run c g l (heap st) in
    (r, mkState (sys_stdout st)
                (alter (fun s => s +:+ printed) (sys_stdout st) (files st))
                w).

(** ** A concrete host for the worked programs

    The parser is given on the texts of the worked programs, by the trees
    [ast.dump(ast.parse(text))] shows for them; the interpreter covers the
    statement and expression forms these programs use, with the meaning
    the language reference gives them (name lookup in locals, globals,
    built-ins; assignment into locals; attributes of modules; the methods
    used).  Outside these texts and forms the host's answer is a
    placeholder. *)
Module Py.

Import ast.

Definition print_sum_text : string := "print(1+1)".
Definition print_sum_tree : node :=
  Module_ [Expr (Call (Name "print" Load)
                      [BinOp (Constant (CInt 1)) Add (Constant (CInt 1))] [])].

Definition import_os_text : string := "import os
print(os.getcwd())".
Definition import_os_tree : node :=
  Module_ [Import [alias "os" None];
           Expr (Call (Name "print" Load)
                      [Call (Attribute (Name "os" Load) "getcwd" Load) [] []] [])].

Definition from_import_text : string := "from os import path".
Definition from_import_tree : node :=
  Module_ [ImportFrom (Some "os") [alias "path" None] 0].

Definition dunder_import_text : string := "print(__import__('os').system('ls'))".
Definition dunder_import_tree : node :=
  Module_ [Expr (Call (Name "print" Load)
                      [Call (Attribute (Call (Name "__import__" Load) [Constant (CStr "os")] [])
                                       "system" Load)
                            [Constant (CStr "ls")] []] [])].

Definition division_text : string := "x = 1/0".
Definition division_tree : node :=
  Module_ [Assign [Name "x" Store] (BinOp (Constant (CInt 1)) Div (Constant (CInt 0)))].

Definition assign_text : string := "x = 5".
Definition assign_tree : node :=
  Module_ [Assign [Name "x" Store] (Constant (CInt 5))].

Definition len_df_text : string := "print(len(df))".
Definition len_df_tree : node :=
  Module_ [Expr (Call (Name "print" Load)
                      [Call (Name "len" Load) [Name "df" Load] []] [])].

Definition dunder_class_text : string := "print(df.__class__)".
Definition dunder_class_tree : node :=
  Module_ [Expr (Call (Name "print" Load)
                      [Attribute (Name "df" Load) "__class__" Load] [])].

Definition dunder_len_text : string := "df.__len__()".
Definition dunder_len_tree : node :=
  Module_ [Expr (Call (Attribute (Name "df" Load) "__len__" Load) [] [])].

Definition if_os_import_text : string := "if os:
    import y".
Definition if_os_import_tree : node :=
  Module_ [If (Name "os" Load) [Import [alias "y" None]] []].

Definition import_then_os_text : string := "import a
os = 1".
Definition import_then_os_tree : node :=
  Module_ [Import [alias "a" None];
           Assign [Name "os" Store] (Constant (CInt 1))].

Definition os_store_text : string := "os = 1".
Definition os_store_tree : node :=
  Module_ [Assign [Name "os" Store] (Constant (CInt 1))].

Definition os_del_text : string := "del os".
Definition os_del_tree : node :=
  Module_ [Delete [Name "os" Del]].

Definition df_clear_text : string := "df.clear()".
Definition df_clear_tree : node :=
  Module_ [Expr (Call (Attribute (Name "df" Load) "clear" Load) [] [])].

Definition df_rebind_text : string := "df = 5".
Definition df_rebind_tree : node :=
  Module_ [Assign [Name "df" Store] (Constant (CInt 5))].

Definition pd_na_text : string := "print(pd.NA)
pd.NA = 0".
Definition pd_na_tree : node :=
  Module_ [Expr (Call (Name "print" Load) [Attribute (Name "pd" Load) "NA" Load] []);
           Assign [Attribute (Name "pd" Load) "NA" Store] (Constant (CInt 0))].

Definition sys_exit_text : string := "pd.compat.sys.exit()".
Definition sys_exit_tree : node :=
  Module_ [Expr (Call (Attribute
                         (Attribute (Attribute (Name "pd" Load) "compat" Load) "sys" Load)
                         "exit" Load) [] [])].

Definition unclosed_text : string := "x = (".

Definition parse_table : list (string * result node) :=
  [ (print_sum_text, Return print_sum_tree);
    (import_os_text, Return import_os_tree);
    (from_import_text, Return from_import_tree);
    (dunder_import_text, Return dunder_import_tree);
    (division_text, Return division_tree);
    (assign_text, Return assign_tree);
    (len_df_text, Return len_df_tree);
    (dunder_class_text, Return dunder_class_tree);
    (dunder_len_text, Return dunder_len_tree);
    (if_os_import_text, Return if_os_import_tree);
    (import_then_os_text, Return import_then_os_tree);
    (os_store_text, Return os_store_tree);
    (os_del_text, Return os_del_tree);
    (df_clear_text, Return df_clear_tree);
    (df_rebind_text, Return df_rebind_tree);
    (pd_na_text, Return pd_na_tree);
    (sys_exit_text, Return sys_exit_tree);
    (unclosed_text, Raise (Exn SyntaxError "'(' was never closed (<unknown>, line 1)")) ].

Fixpoint assoc {A} (key : string) (table : list (string * A)) : option A :=
  match table with
  | [] => None
  | (k, a) :: rest => if String.eqb key k then Some a else assoc key rest
  end.

Definition parse (text : string) : result node :=
  default (Raise (Exn SyntaxError "invalid syntax (<unknown>, line 1)"))
          (assoc text parse_table).

(** *** The heap and the interpreter *)

Inductive object :=
| ODict (items : gmap string value)
| OModule (name : string) (attrs : gmap string value).

Definition heap := gmap loc object.

(** A running program: its two namespaces, what it has printed, the heap. *)
Record frame := mkFrame {
  f_globals : gmap string value;
  f_locals : gmap string value;
  f_printed : string;
  f_heap : heap
}.

(** [None]: the form is outside the fragment. *)
Definition step (A : Type) : Type := frame -> option (result A * frame).

Definition done {A} (a : A) : step A := fun f => Some (Return a, f).
Definition throw {A} (c : exc_class) (msg : string) : step A :=
  fun f => Some (Raise (Exn c msg), f).
Definition unsupported {A} : step A := fun _ => None.
Definition and_then {A B} (m : step A) (k : A -> step B) : step B :=
  fun f =>
    match m f with
    | Some (Return a, f') => k a f'
    | Some (Raise e, f') => Some (Raise e, f')
    | None => None
    end.

Definition load_name (id : string) : step value :=
  fun f =>
    match f_locals f !! id with
    | Some v => Some (Return v, f)
    | None =>
        match f_globals f !! id with
        | Some v => Some (Return v, f)
        | None =>
            match f_globals f !! "__builtins__" with
            | Some (VDict builtins) =>
                match builtins !! id with
                | Some v => Some (Return v, f)
                | None => Some (Raise (Exn NameError ("name '" +:+ id +:+ "' is not defined")), f)
                end
            | _ => None
            end
        end
    end.

Definition store_name (id : string) (v : value) : step unit :=
  fun f => Some (Return tt, mkFrame (f_globals f) (<[id := v]> (f_locals f)) (f_printed f) (f_heap f)).

Definition load_attr (obj : value) (attr : string) : step value :=
  fun f =>
    match obj with
    | VRef l =>
        match f_heap f !! l with
        | Some (OModule name attrs) =>
            match attrs !! attr with
            | Some v => Some (Return v, f)
            | None =>
                Some (Raise (Exn AttributeError
                        ("module '" +:+ name +:+ "' has no attribute '" +:+ attr +:+ "'")), f)
            end
        | Some (ODict _) =>
            if String.eqb attr "clear" then Some (Return (VMethod l "clear"), f)
            else if String.eqb attr "__class__" then Some (Return (VOpaque "<class 'dict'>"), f)
            else None
        | None => None
        end
    | _ => None
    end.

Definition store_attr (obj : value) (attr : string) (v : value) : step unit :=
  fun f =>
    match obj with
    | VRef l =>
        match f_heap f !! l with
        | Some (OModule name attrs) =>
            Some (Return tt,
                  mkFrame (f_globals f) (f_locals f) (f_printed f)
                          (<[l := OModule name (<[attr := v]> attrs)]> (f_heap f)))
        | _ => None
        end
    | _ => None
    end.

(** [str(v)] *)
Definition to_str (v : value) : option string :=
  match v with
  | VNone => Some "None"
  | VInt z => Some (pretty z)
  | VStr s => Some s
  | VOpaque repr => Some repr
  | _ => None
  end.

Definition newline : string := String (ascii_of_nat 10) EmptyString.

(** A call of [callee] with the evaluated positional arguments [args]. *)
Definition call (callee : value) (args : list value) : step value :=
  fun f =>
    match callee with
    | VFunction name =>
        if String.eqb name "print" then
          match args with
          | [v] =>
              match to_str v with
              | Some s =>
                  Some (Return VNone,
                        mkFrame (f_globals f) (f_locals f)
                                (f_printed f +:+ s +:+ newline) (f_heap f))
              | None => None
              end
          | _ => None
          end
        else if String.eqb name "len" then
          match args with
          | [VStr s] => Some (Return (VInt (Z.of_nat (String.length s))), f)
          | [VRef l] =>
              match f_heap f !! l with
              | Some (ODict items) => Some (Return (VInt (Z.of_nat (base.size items))), f)
              | _ => None
              end
          | [VInt _] => Some (Raise (Exn TypeError "object of type 'int' has no len()"), f)
          | _ => None
          end
        else if String.eqb name "sys.exit" then
          match args with
          | [] => Some (Raise (Exn SystemExit ""), f)
          | _ => None
          end
        else None
    | VMethod l name =>
        if String.eqb name "clear" then
          match args, f_heap f !! l with
          | [], Some (ODict _) =>
              Some (Return VNone,
                    mkFrame (f_globals f) (f_locals f) (f_printed f)
                            (<[l := ODict ∅]> (f_heap f)))
          | _, _ => None
          end
        else None
    | _ => None
    end.

Definition binop (op : operator) (a b : value) : step value :=
  match op, a, b with
  | Add, VInt x, VInt y => done (VInt (x + y))
  | Add, VStr x, VStr y => done (VStr (x +:+ y))
  | Sub, VInt x, VInt y => done (VInt (x - y))
  | Mult, VInt x, VInt y => done (VInt (x * y))
  | Div, VInt _, VInt 0 => throw ZeroDivisionError "division by zero"
  | _, _, _ => unsupported
  end.

(** Expressions in load context, operands and arguments from the left. *)
Fixpoint eval (e : node) : step value :=
  match e with
  | Constant CNone => done VNone
  | Constant (CInt z) => done (VInt z)
  | Constant (CStr s) => done (VStr s)
  | Name id Load => load_name id
  | Attribute obj attr Load => and_then (eval obj) (fun o => load_attr o attr)
  | BinOp lhs op rhs =>
      and_then (eval lhs) (fun a => and_then (eval rhs) (fun b => binop op a b))
  | Call func [] [] => and_then (eval func) (fun c => call c [])
  | Call func [arg] [] =>
      and_then (eval func) (fun c => and_then (eval arg) (fun v => call c [v]))
  | _ => unsupported
  end.

(** Statements at the top level of the program: the value of an
    assignment is computed before its target is looked at. *)
Definition exec_stmt (s : node) : step unit :=
  match s with
  | Expr e => and_then (eval e) (fun _ => done tt)
  | Assign [Name id Store] e => and_then (eval e) (fun v => store_name id v)
  | Assign [Attribute obj attr Store] e =>
      and_then (eval e) (fun v => and_then (eval obj) (fun o => store_attr o attr v))
  | _ => unsupported
  end.

Fixpoint exec_body (body : list node) : step unit :=
  match body with
  | [] => done tt
  | s :: rest => and_then (exec_stmt s) (fun _ => exec_body rest)
  end.

Definition run (c : code) (globals locals : gmap string value) (w : heap)
    : result unit * string * heap :=
  match co_tree c with
  | Module_ body =>
      match exec_body body (mkFrame globals locals "" w) with
      | Some (r, f) => (r, f_printed f, f_heap f)
      | None => (Raise (Exn (LibraryError "not in the fragment") ""), "", w)
      end
  | _ => (Raise (Exn (LibraryError "not in the fragment") ""), "", w)
  end.

(** The objects of the worked programs: a dataset of three tables, and
    the part of the [pandas] module the programs reach. *)
Definition dataset_loc : loc := 10.
Definition pandas_loc : loc := 20.

Definition heap0 : heap :=
  {[ dataset_loc := ODict {[ "Overview" := VOpaque "<DataFrame>";
                             "Visits" := VOpaque "<DataFrame>";
                             "Scans" := VOpaque "<DataFrame>" ]};
     pandas_loc := OModule "pandas" {[ "NA" := VOpaque "<NA>"; "compat" := VRef 21 ]};
     21 := OModule "pandas.compat" {[ "sys" := VRef 22 ]};
     22 := OModule "sys" {[ "exit" := VFunction "sys.exit" ]} ]}.

Definition host : Host heap :=
  mkHost parse
         (fun tree => Return (Code tree))
         (exec_of run)
         (VRef pandas_loc)
         (fun _ _ user_query _ => user_query)
         "/srv/chatbot".

Definition data : value := VRef dataset_loc.

(** An upstream model that answers with its prompt: with the prompt
    template of [host], the candidate text is the query itself. *)
Definition echo (prompt : string) : result string := Return prompt.

(** The state of a process that has printed nothing: file 0 is the real
    standard output. *)
Definition st0 : State heap := mkState 0 [""] heap0.

Definition tool (user_query : string) : M heap string :=
  _tool host data "" "" echo user_query.

End Py.


(** ** A host whose parser and compiler can fail in other ways

    [Py2.parse] knows a few more texts and otherwise asks [Py.parse];
    [Py2.compile] refuses a [return] at the top level of a program, as
    the byte-compiler does. *)
Module Py2.

Import ast.

Definition return_text : string := "return 1".
Definition return_tree : node := Module_ [Other "Return" [Constant (CInt 1)]].

Definition eval_call_text : string := "print(eval('1'))".
Definition eval_call_tree : node :=
  Module_ [Expr (Call (Name "print" Load)
                      [Call (Name "eval" Load) [Constant (CStr "1")] []] [])].

Definition df_eval_text : string := "df.eval('a')".
Definition df_eval_tree : node :=
  Module_ [Expr (Call (Attribute (Name "df" Load) "eval" Load) [Constant (CStr "a")] [])].

Definition empty_tree : node := Module_ [].

Definition two_statements_text : string := "x = 5
print(len(df))".
Definition two_statements_tree : node :=
  Module_ ([Assign [Name "x" Store] (Constant (CInt 5))] ++
           [Expr (Call (Name "print" Load)
                       [Call (Name "len" Load) [Name "df" Load] []] [])]).

(** A text with a null character in it. *)
Definition nul_text : string := "a" +:+ String (ascii_of_nat 0) "b".

Definition parse_table : list (string * result node) :=
  [ (return_text, Return return_tree);
    (eval_call_text, Return eval_call_tree);
    (df_eval_text, Return df_eval_tree);
    ("", Return empty_tree);
    (two_statements_text, Return two_statements_tree);
    (nul_text, Raise (Exn ValueError "source code string cannot contain null bytes")) ].

Definition parse (text : string) : result node :=
  default (Py.parse text) (Py.assoc text parse_table).

Definition is_return (n : node) : bool :=
  match n with
  | Other cls _ => String.eqb cls "Return"
  | _ => false
  end.

Definition compile (tree : node) : result code :=
  match tree with
  | Module_ body =>
      if existsb is_return body
      then Raise (Exn SyntaxError "'return' outside function (<expr>, line 1)")
      else Return (Code tree)
  | _ => Return (Code tree)
  end.

Definition host : Host Py.heap :=
  mkHost parse compile (exec_of Py.run) (VRef Py.pandas_loc)
         (fun _ _ user_query _ => user_query) "/srv/chatbot".

Definition tool (user_query : string) : M Py.heap string :=
  _tool host Py.data "" "" Py.echo user_query.

End Py2.

(** ** Start-up and the query loop: main.py *)
Module main.

Definition newline : string := String (ascii_of_nat 10) EmptyString.

(** *** The API key at import time

    [os.environ] is a mapping from names to strings; [os.environ.get] and
    [os.getenv] both look the name up and give [None] when it is absent;
    storing [None] raises a [TypeError]. *)
Definition OPENAI_API_KEY : string := "OPENAI_API_KEY".

(** [not x] for a string or [None]. *)
Definition falsy (x : option string) : bool :=
  match x with
  | None => true
  | Some s => String.eqb s ""
  end.

(** [os.environ[key] = x] *)
Definition environ_setitem (key : string) (x : option string)
    (environ : gmap string string) : result (gmap string string) :=
  match x with
  | Some v => Return (<[key := v]> environ)
  | None => Raise (Exn TypeError "str expected, not NoneType")
  end.

(** [if not os.environ.get('OPENAI_API_KEY'):
         os.environ['OPENAI_API_KEY'] = os.getenv('OPENAI_API_KEY')] *)
Definition load_api_key (environ : gmap string string) : result (gmap string string) :=
  if falsy (environ !! OPENAI_API_KEY)
  then environ_setitem OPENAI_API_KEY (environ !! OPENAI_API_KEY) environ
  else Return environ.

(** *** The preview of the sheets

    [data.items()] is the list of sheets in the order of the workbook;
    [head_markdown df] stands for [df.head().to_markdown()]. *)

(** [sep.join(items)] *)
Fixpoint join (sep : string) (items : list string) : string :=
  match items with
  | [] => ""
  | [x] => x
  | x :: rest => x +:+ sep +:+ join sep rest
  end.

Definition snippet (sheet_name markdown : string) : string :=
  "### Sheet: " +:+ sheet_name +:+ newline +:+ markdown.

Definition preview_snippets {F : Type} (head_markdown : F -> string)
    (data : list (string * F)) : list string :=
  map (fun item => snippet item.1 (head_markdown item.2)) data.

Definition all_sheets_preview {F : Type} (head_markdown : F -> string)
    (data : list (string * F)) : string :=
  join (newline +:+ newline) (preview_snippets head_markdown data).

(** *** The query loop

    The console holds the lines still to be read from the standard
    input, what has been written to the standard output, piece by piece,
    and the memory of the agent.  [agent q m] stands for
    [agent.invoke({'input': q})['output']] with the agent in memory [m]. *)
Record console (A : Type) := mkConsole {
  stdin : list string;
  stdout : list string;
  memory : A
}.
Arguments mkConsole {A} _ _ _.
Arguments stdin {A} _.
Arguments stdout {A} _.
Arguments memory {A} _.

(** How a run of the loop stands: left by [break], left by an exception,
    or still going round when the turns allowed were used up. *)
Inductive loop_end :=
| Finished
| Crashed (e : exn)
| Running.

Definition write {A} (text : string) (c : console A) : console A :=
  mkConsole (stdin c) (stdout c ++ [text]) (memory c).

(** [print(text)] *)
Definition print {A} (text : string) (c : console A) : console A :=
  write (text +:+ newline) c.

Definition query_prompt : string := newline +:+ "Query: ".

(** [input()] at the end of the input raises [EOFError], a built-in class
    derived from [Exception], written here with [LibraryError]. *)
Definition EOFError_at_input : exn := Exn (LibraryError "EOFError") "EOF when reading a line".

Definition error_line (e : exn) : string :=
  newline +:+ "Error during execution: " +:+ exc_str e.

Section Loop.

Context {A : Type}.
Variable agent : string -> A -> result string * A.

(** [while 1:] with at most [turns] turns.  Each turn writes the prompt
    and reads a line; the handler of [except Exception] prints the error
    and the loop goes on; any other exception leaves the loop. *)
Fixpoint main_loop (turns : nat) (c : console A) : loop_end * console A :=
  match turns with
  | O => (Running, c)
  | S turns' =>
      let c := write query_prompt c in
      match stdin c with
      | [] => main_loop turns' (print (error_line EOFError_at_input) c)
      | user_query :: rest =>
          let c := mkConsole rest (stdout c) (memory c) in
          if (0 <? String.length user_query)%nat then
            match agent user_query (memory c) with
            | (Return output, m) =>
                main_loop turns' (print output (mkConsole (stdin c) (stdout c) m))
            | (Raise e, m) =>
                if isinstance e Exception
                then main_loop turns' (print (error_line e) (mkConsole (stdin c) (stdout c) m))
                else (Crashed e, mkConsole (stdin c) (stdout c) m)
            end
          else (Finished, print "Process finished." c)
      end
  end.

(** The memory of the agent after it has answered [queries] in turn. *)
Definition memory_after (queries : list string) (m : A) : A :=
  foldl (fun m q => (agent q m).2) m queries.

(** What the loop writes for [queries]: for each one the prompt, then the
    line printed for the answer or for the error. *)
Fixpoint transcript (queries : list string) (m : A) : list string :=
  match queries with
  | [] => []
  | q :: rest =>
      let '(r, m') := agent q m in
      query_prompt ::
      (match r with
       | Return output => output
       | Raise e => error_line e
       end +:+ newline) ::
      transcript rest m'
  end.

End Loop.

(** An agent that answers a query with the query and a mark, counts its
    calls, and fails on two queries. *)
Definition parrot (q : string) (calls : nat) : result string * nat :=
  if String.eqb q "boom" then (Raise (Exn KeyError "'output'"), S calls)
  else if String.eqb q "stop" then (Raise (Exn KeyboardInterrupt ""), S calls)
  else (Return (q +:+ "!"), S calls).

End main.

(** * Properties *)

(** ** Text *)

Lemma append_nil_l (s : string) : "" +:+ s = s.
Proof. reflexivity. Qed.

Lemma append_cons (c : ascii) (a b : string) : String c a +:+ b = String c (a +:+ b).
Proof. reflexivity. Qed.

Lemma append_nil_r (s : string) : s +:+ "" = s.
Proof. induction s as [|c s IH]; [done|]. by rewrite append_cons, IH. Qed.

Lemma append_assoc (a b c : string) : (a +:+ b) +:+ c = a +:+ b +:+ c.
Proof. induction a as [|x a IH]; [done|]. by rewrite !append_cons, IH. Qed.

(** Text built with [+:+] is laid out character by character. *)
Ltac layout := rewrite ?append_cons, ?append_nil_l in *; simpl in *.

Lemma prefix_append (a r : string) : String.prefix a (a +:+ r) = true.
Proof.
  induction a as [|c a IH]; layout; [by destruct r|].
  destruct (Ascii.ascii_dec c c); [exact IH | congruence].
Qed.

Lemma contains_unfold (sub s : string) :
  str.contains sub s =
  String.prefix sub s ||
  match s with
  | EmptyString => false
  | String _ r => str.contains sub r
  end.
Proof. by destruct s. Qed.

(** A text contains each of the pieces it is put together from. *)
Lemma contains_append (sub l r : string) : str.contains sub (l +:+ sub +:+ r) = true.
Proof.
  induction l as [|c l IH]; layout.
  - rewrite contains_unfold, prefix_append. done.
  - rewrite IH. apply orb_true_r.
Qed.

Lemma contains_suffix (sub l : string) : str.contains sub (l +:+ sub) = true.
Proof.
  rewrite <- (append_nil_r sub) at 2. apply contains_append.
Qed.


Lemma lstrip_split (s : string) :
  exists l, s = l +:+ str.lstrip s /\ str.whitespace_only l = true.
Proof.
  induction s as [|c s [l [E Hl]]]; simpl.
  - by exists "".
  - destruct (str.isspace c) eqn:Hc.
    + exists (String c l). layout. rewrite Hc, Hl. split; [congruence | done].
    + by exists "".
Qed.

Lemma lstrip_first (s : string) (c : ascii) :
  str.first_char (str.lstrip s) = Some c -> str.isspace c = false.
Proof.
  induction s as [|d s IH]; simpl; [done|].
  destruct (str.isspace d) eqn:Hd; [exact IH|].
  simpl. congruence.
Qed.

Lemma rstrip_split (s : string) :
  exists r, s = str.rstrip s +:+ r /\ str.whitespace_only r = true.
Proof.
  induction s as [|c s [r [E Hr]]]; simpl.
  - by exists "".
  - destruct (str.rstrip s) as [|d t] eqn:Hs.
    + destruct (str.isspace c) eqn:Hc.
      * exists (String c r). layout. rewrite Hc, Hr. split; [congruence | done].
      * exists r. layout. split; [congruence | done].
    + exists r. layout. split; [congruence | done].
Qed.

Lemma rstrip_last (s : string) (c : ascii) :
  str.last_char (str.rstrip s) = Some c -> str.isspace c = false.
Proof.
  induction s as [|d s IH]; simpl; [done|].
  destruct (str.rstrip s) as [|e t] eqn:Hs.
  - destruct (str.isspace d) eqn:Hd; simpl; [done | congruence].
  - intros Hl. apply IH. exact Hl.
Qed.

Lemma rstrip_first (s : string) (c : ascii) :
  str.first_char s = Some c -> str.isspace c = false ->
  str.first_char (str.rstrip s) = Some c.
Proof.
  destruct s as [|d s]; simpl; [done|].
  intros [= ->] Hc.
  destruct (str.rstrip s); [rewrite Hc|]; done.
Qed.



(** [s.strip()] is [s] without a whitespace-only head and tail, and does
    not itself begin or end with whitespace. *)
Lemma strip_trimmed (s : string) :
  (exists l r, s = l +:+ str.strip s +:+ r /\
               str.whitespace_only l = true /\ str.whitespace_only r = true) /\
  (forall c, str.first_char (str.strip s) = Some c -> str.isspace c = false) /\
  (forall c, str.last_char (str.strip s) = Some c -> str.isspace c = false).
Proof.
  unfold str.strip. split; [|split].
  - destruct (lstrip_split s) as [l [El Hl]].
    destruct (rstrip_split (str.lstrip s)) as [r [Er Hr]].
    exists l, r. split; [|done]. by rewrite <- Er.
  - intros c Hc.
    destruct (str.lstrip s) as [|d t] eqn:Hs; [done|].
    assert (str.isspace d = false) as Hd by (apply (lstrip_first s); by rewrite Hs).
    rewrite (rstrip_first (String d t) d) in Hc; [congruence | done | done].
  - intros c. apply rstrip_last.
Qed.

Example strip_example :
  str.strip (" " +:+ Py.newline +:+ "print(1)  " +:+ Py.newline) = "print(1)".
Proof. reflexivity. Qed.

Example replace_example :
  str.replace "aa" "b" "aaa" = "ba" /\ str.replace "```" "" "a``````b````" = "ab`".
Proof. split; reflexivity. Qed.

(** The fences of a fenced answer are taken off. *)
Example adapt_example :
  adapt ("```python" +:+ Py.newline +:+ "print(1+1)" +:+ Py.newline +:+ "```") = "print(1+1)".
Proof. reflexivity. Qed.

(** ** The walk over a tree *)

(** The classes of the nodes in the order [ast.walk] yields them. *)
Example walk_print_sum :
  map ast.class_name (ast.walk Py.print_sum_tree) =
  ["Module"; "Expr"; "Call"; "Name"; "BinOp"; "Load"; "Constant"; "Add"; "Constant"].
Proof. reflexivity. Qed.

Example walk_import_os :
  map ast.class_name (ast.walk Py.import_os_tree) =
  ["Module"; "Import"; "Expr"; "alias"; "Call"; "Name"; "Call"; "Load"; "Attribute";
   "Name"; "Load"; "Load"].
Proof. reflexivity. Qed.

Example walk_pd_na :
  map ast.class_name (ast.walk Py.pd_na_tree) =
  ["Module"; "Expr"; "Assign"; "Call"; "Attribute"; "Constant"; "Name"; "Attribute";
   "Name"; "Store"; "Load"; "Name"; "Load"; "Load"; "Load"].
Proof. reflexivity. Qed.

Example walk_if_os_import :
  map ast.class_name (ast.walk Py.if_os_import_tree) =
  ["Module"; "If"; "Name"; "Import"; "Load"; "alias"].
Proof. reflexivity. Qed.

Lemma size_children (n : ast.node) :
  ast.size n = S (list_sum (map ast.size (ast.iter_child_nodes n))).
Proof.
  destruct n; simpl; rewrite ?map_app, ?list_sum_app; simpl; lia.
Qed.

Lemma occurs_in_unfold (x p : ast.node) :
  ast.occurs_in x p <->
  x = p \/ exists c, In c (ast.iter_child_nodes p) /\ ast.occurs_in x c.
Proof.
  split.
  - intros Hx. inversion Hx; subst; eauto.
  - intros [-> | [c [Hc Hx]]]; [constructor | econstructor; eauto].
Qed.

Lemma occurs_in_trans (x y z : ast.node) :
  ast.occurs_in x y -> ast.occurs_in y z -> ast.occurs_in x z.
Proof.
  intros Hxy Hyz. induction Hyz; [done|].
  econstructor; eauto.
Qed.

(** With fuel for every node waiting in the queue or below it, the loop
    yields exactly the nodes that occur in the queued trees. *)
Lemma walk_loop_fuel (fuel : nat) :
  forall todo, list_sum (map ast.size todo) <= fuel ->
  forall x, In x (ast.walk_loop fuel todo) <->
            exists q, In q todo /\ ast.occurs_in x q.
Proof.
  induction fuel as [|fuel IH]; intros todo Hfuel x.
  - destruct todo as [|n rest].
    + simpl. split; [done | intros [q [[] _]]].
    + simpl in Hfuel. rewrite size_children in Hfuel. lia.
  - destruct todo as [|n rest].
    + simpl. split; [done | intros [q [[] _]]].
    + simpl in *. rewrite size_children in Hfuel.
      rewrite IH by (rewrite map_app, list_sum_app; lia).
      split.
      * intros [<- | [q [Hq Hx]]].
        -- exists n. split; [by left | constructor].
        -- apply in_app_iff in Hq as [Hq | Hq].
           ++ exists q. split; [by right | done].
           ++ exists n. split; [by left | econstructor; eauto].
      * intros [q [[<- | Hq] Hx]].
        -- apply occurs_in_unfold in Hx as [-> | [c [Hc Hx]]]; [by left|].
           right. exists c. split; [apply in_app_iff; by right | done].
        -- right. exists q. split; [apply in_app_iff; by left | done].
Qed.

(** [ast.walk] yields every node of the tree, and nothing else. *)
Lemma walk_occurs (t x : ast.node) : In x (ast.walk t) <-> ast.occurs_in x t.
Proof.
  unfold ast.walk. rewrite walk_loop_fuel by (simpl; lia).
  split.
  - intros [q [[<- | []] Hx]]. done.
  - intros Hx. exists t. split; [by left | done].
Qed.

(** More fuel changes nothing: the loop has stopped on an empty queue. *)
Lemma walk_loop_more_fuel (fuel extra : nat) :
  forall todo, list_sum (map ast.size todo) <= fuel ->
  ast.walk_loop (fuel + extra) todo = ast.walk_loop fuel todo.
Proof.
  induction fuel as [|fuel IH]; intros todo Hfuel.
  - destruct todo as [|n rest]; [by destruct extra|].
    simpl in Hfuel. rewrite size_children in Hfuel. lia.
  - destruct todo as [|n rest]; [done|].
    simpl in *. rewrite size_children in Hfuel.
    rewrite IH by (rewrite map_app, list_sum_app; lia). done.
Qed.

(** ** The validator *)

Lemma check_node_ValueError (n : ast.node) (e : exn) :
  check_node n = Some e -> exc_type e = ValueError.
Proof.
  destruct n; simpl; try done; try (intros [= <-]; done).
  - case_bool_decide; [intros [= <-]; done | done].
  - destruct n; try done.
    + case_bool_decide; [intros [= <-]; done | done].
    + destruct (_ || _); [intros [= <-]; done | done].
Qed.

(** The loop raises what the first offending node raises. *)
Lemma check_nodes_first (pre post : list ast.node) (n : ast.node) (e : exn) :
  Forall (fun m => check_node m = None) pre ->
  check_node n = Some e ->
  check_nodes (pre ++ n :: post) = Some e.
Proof.
  intros Hpre Hn. induction Hpre as [|m pre Hm _ IH]; simpl.
  - by rewrite Hn.
  - by rewrite Hm.
Qed.

(** Whatever the loop raises is raised by a node with none offending
    before it. *)
Lemma check_nodes_Some (nodes : list ast.node) (e : exn) :
  check_nodes nodes = Some e ->
  exists pre n post,
    nodes = pre ++ n :: post /\
    Forall (fun m => check_node m = None) pre /\
    check_node n = Some e.
Proof.
  induction nodes as [|m nodes IH]; simpl; [done|].
  destruct (check_node m) as [e'|] eqn:Hm.
  - intros [= ->]. exists [], m, nodes. done.
  - intros He. destruct (IH He) as (pre & n & post & -> & Hpre & Hn).
    exists (m :: pre), n, post. split; [done|]. split; [by constructor | done].
Qed.

Lemma check_nodes_None (nodes : list ast.node) :
  check_nodes nodes = None <-> forall n, In n nodes -> check_node n = None.
Proof.
  induction nodes as [|m nodes IH]; simpl.
  - split; [by intros _ n [] | done].
  - destruct (check_node m) eqn:Hm.
    + split; [done|]. intros Hall. specialize (Hall m (or_introl eq_refl)). congruence.
    + rewrite IH. split.
      * intros Hall n [<- | Hn]; [done | by apply Hall].
      * intros Hall n Hn. apply Hall. by right.
Qed.

(** One offending node anywhere is enough for the loop to raise. *)
Lemma check_nodes_offender (nodes : list ast.node) (n : ast.node) :
  In n nodes -> check_node n <> None -> exists e, check_nodes nodes = Some e.
Proof.
  intros Hin Hn. destruct (check_nodes nodes) as [e|] eqn:He; [by exists e|].
  rewrite check_nodes_None in He. by apply He in Hin.
Qed.

Lemma check_nodes_ValueError (nodes : list ast.node) (e : exn) :
  check_nodes nodes = Some e -> exc_type e = ValueError.
Proof.
  intros He. apply check_nodes_Some in He as (pre & n & post & _ & _ & Hn).
  by apply check_node_ValueError in Hn.
Qed.

(** What the validator raises is a [ValueError], unless the parser
    raised something that is not a [SyntaxError], which passes through. *)
Lemma validate_expression_raises parse text (e : exn) :
  validate_expression parse text = Raise e ->
  exc_type e = ValueError \/
  (parse text = Raise e /\ isinstance e SyntaxError = false).
Proof.
  unfold validate_expression. destruct (parse text) as [tree|e0].
  - destruct (check_nodes (ast.walk tree)) as [e'|] eqn:He; [|done].
    intros [= ->]. left. by apply check_nodes_ValueError in He.
  - destruct (isinstance e0 SyntaxError) eqn:Hs.
    + intros [= <-]. by left.
    + intros [= <-]. by right.
Qed.

(** The validator accepts a text exactly when it parses and no node of
    its tree offends; it then returns the tree. *)
Lemma validate_expression_accepts parse text (tree : ast.node) :
  validate_expression parse text = Return tree <->
  parse text = Return tree /\ forall n, ast.occurs_in n tree -> check_node n = None.
Proof.
  unfold validate_expression. destruct (parse text) as [t|e0].
  - destruct (check_nodes (ast.walk t)) as [e|] eqn:He.
    + split; [done|]. intros [[= ->] Hall].
      assert (check_nodes (ast.walk tree) = None) as Hnone; [|congruence].
      apply check_nodes_None. intros n Hn. apply Hall. by apply walk_occurs.
    + rewrite check_nodes_None in He. split.
      * intros [= ->]. split; [done|]. intros n Hn. apply He. by apply walk_occurs.
      * by intros [[= ->] _].
  - split; [by destruct (isinstance e0 SyntaxError) | by intros [? _]].
Qed.

(** It raises a [ValueError] when the text does not parse (the parser
    raises a [SyntaxError]), and when the text parses to a tree in which
    some node offends. *)
Lemma validate_expression_rejects parse text :
  (exists e0, parse text = Raise e0 /\ isinstance e0 SyntaxError = true) \/
  (exists tree n, parse text = Return tree /\ ast.occurs_in n tree /\ check_node n <> None) ->
  exists reason, validate_expression parse text = Raise (Exn ValueError reason).
Proof.
  unfold validate_expression.
  intros [(e0 & -> & ->) | (tree & n & -> & Hocc & Hn)]; [by eexists|].
  apply walk_occurs in Hocc.
  destruct (check_nodes_offender _ _ Hocc Hn) as [[ty reason] He]. rewrite He.
  apply check_nodes_ValueError in He. simpl in He. subst ty. by eexists.
Qed.

(** ** The executor *)

Section ExecutorFacts.

Context {W : Type}.
Variable H : Host W.
Variable data : value.
Variable preview columns_context : string.
Variable code_llm : string -> result string.

(** A text the validator raises on: a [ValueError] is turned into a
    [RuntimeError], anything else passes through; either way in the
    state the call found. *)
Lemma execute_raises (generated_code : string) (e : exn) (st : State W) :
  validate_expression (ast_parse H) generated_code = Raise e ->
  execute_generated_code H data generated_code st =
  (if isinstance e ValueError
   then Raise (Exn RuntimeError ("Code not allowed: " +:+ exc_str e))
   else Raise e, st).
Proof.
  intros Hv.
  unfold execute_generated_code, bind, try_except, lift, raise.
  rewrite Hv. by destruct (isinstance e ValueError).
Qed.

Lemma execute_rejected (generated_code reason : string) (st : State W) :
  validate_expression (ast_parse H) generated_code = Raise (Exn ValueError reason) ->
  execute_generated_code H data generated_code st =
  (Raise (Exn RuntimeError ("Code not allowed: " +:+ reason)), st).
Proof.
  intros Hv. by rewrite (execute_raises _ _ _ Hv).
Qed.

(** An accepted text that compiles: what the call gives is read off
    what the interpreter does in the redirected state. *)
Lemma execute_accepted (generated_code : string) (tree : ast.node) (c : code)
    (st : State W) :
  validate_expression (ast_parse H) generated_code = Return tree ->
  compile H tree = Return c ->
  execute_generated_code H data generated_code st =
  match exec H c (safe_globals data (pd H)) safe_locals (redirected st) with
  | (Return _, st') =>
      (Return (if String.eqb (str.strip (captured st st')) ""
               then no_output_message
               else str.strip (captured st st')),
       restored st st')
  | (Raise e, st') =>
      if isinstance e Exception
      then (Return (error_message e generated_code), restored st st')
      else (Raise e, st')
  end.
Proof.
  intros Hv Hc.
  unfold execute_generated_code, bind, try_except, lift, raise, get_stdout,
    set_stdout, StringIO, getvalue, ret.
  rewrite Hv, Hc. simpl. unfold redirected.
  destruct (exec H c _ _ _) as [[[]|e] st']; simpl.
  - unfold captured, restored. by destruct (String.eqb _ _).
  - by destruct (isinstance e Exception).
Qed.

Lemma tool_unfold (user_query response : string) (st : State W) :
  code_llm (format_prompt H preview columns_context user_query (getcwd H)) = Return response ->
  _tool H data preview columns_context code_llm user_query st =
  execute_generated_code H data (adapt response) st.
Proof.
  intros Hr. unfold _tool, bind, lift. by rewrite Hr.
Qed.

(** Whenever the tool returns a string, [sys.stdout] is bound to what it
    was bound to when the tool was called. *)
Lemma tool_returns_stdout_restored (user_query s : string) (st st' : State W) :
  _tool H data preview columns_context code_llm user_query st = (Return s, st') ->
  sys_stdout st' = sys_stdout st.
Proof.
  unfold _tool, bind, lift.
  destruct (code_llm _) as [response|e]; [|done].
  destruct (validate_expression (ast_parse H) (adapt response)) as [tree|e] eqn:Hv.
  - destruct (compile H tree) as [c|e] eqn:Hc.
    + rewrite (execute_accepted _ _ _ _ Hv Hc).
      destruct (exec H c _ _ _) as [[[]|e] st1].
      * by intros [= _ <-].
      * destruct (isinstance e Exception); [by intros [= _ <-] | done].
    + unfold execute_generated_code, bind, try_except, lift, raise.
      rewrite Hv, Hc. by destruct (isinstance e ValueError).
  - rewrite (execute_raises _ _ _ Hv). by destruct (isinstance e ValueError).
Qed.

End ExecutorFacts.

(** The interpreter is only ever started on the namespace built in the
    call: interpreters that agree on that namespace make the same tool. *)
Lemma tool_same_for_agreeing_interpreters {W : Type}
    (H : Host W) (data : value) (preview columns_context : string)
    (code_llm : string -> result string)
    (exec1 exec2 : code -> gmap string value -> gmap string value -> State W
                   -> result unit * State W)
    (user_query : string) (st : State W) :
  (forall c st0,
     exec1 c (safe_globals data (pd H)) safe_locals st0 =
     exec2 c (safe_globals data (pd H)) safe_locals st0) ->
  _tool (with_exec H exec1) data preview columns_context code_llm user_query st =
  _tool (with_exec H exec2) data preview columns_context code_llm user_query st.
Proof.
  intros Hagree. unfold _tool, bind, lift. simpl.
  destruct (code_llm _) as [response|e]; [|done].
  destruct (validate_expression (ast_parse H) (adapt response)) as [tree|e] eqn:Hv.
  - destruct (compile H tree) as [c|e] eqn:Hc.
    + rewrite (execute_accepted (with_exec H exec1) _ _ tree c) by done.
      rewrite (execute_accepted (with_exec H exec2) _ _ tree c) by done.
      simpl. rewrite (Hagree c (redirected st)). reflexivity.
    + unfold execute_generated_code, bind, try_except, lift, raise.
      simpl. rewrite Hv, Hc. by destruct (isinstance e ValueError).
  - rewrite (execute_raises (with_exec H exec1) _ _ e) by done.
    by rewrite (execute_raises (with_exec H exec2) _ _ e).
Qed.

(** An exception that is not an [Exception] passes through the second
    [try], in the state the interpreter left. *)
Lemma tool_other_exception_passes {W : Type}
    (H : Host W) (data : value) (preview columns_context : string)
    (code_llm : string -> result string)
    (user_query response : string)
    (tree : ast.node) (c : code) (e : exn) (st st' : State W) :
  code_llm (format_prompt H preview columns_context user_query (getcwd H)) = Return response ->
  validate_expression (ast_parse H) (adapt response) = Return tree ->
  compile H tree = Return c ->
  exec H c (safe_globals data (pd H)) safe_locals (redirected st) = (Raise e, st') ->
  isinstance e Exception = false ->
  _tool H data preview columns_context code_llm user_query st = (Raise e, st').
Proof.
  intros Hr Hv Hc Hx He.
  rewrite (tool_unfold _ _ _ _ _ _ response) by done.
  rewrite (execute_accepted _ _ _ tree c) by done.
  by rewrite Hx, He.
Qed.

(** ** Properties of the validator (C1, C8, C10) *)

(** Membership in a walk that has been computed. *)
Ltac in_walk := apply walk_occurs; vm_compute; repeat (try (left; reflexivity); right).

(** C1, as stated, fails: in [print(df.__class__)] the only attribute
    access is [df.__class__], whose name contains the double underscore,
    and the validator accepts the text, because the access is not the
    callee of a call. *)
Lemma C1_dunder_attribute_outside_callee_accepted :
  Py.parse Py.dunder_class_text = Return Py.dunder_class_tree /\
  attribute_accesses Py.dunder_class_tree =
    [ast.Attribute (ast.Name "df" ast.Load) "__class__" ast.Load] /\
  str.contains "__" "__class__" = true /\
  validate_expression Py.parse Py.dunder_class_text = Return Py.dunder_class_tree.
Proof. vm_compute. done. Qed.

(** C1, amended: a text that parses and in which an attribute access
    whose name contains the double underscore is the callee of a call is
    rejected with a [ValueError]; the reason names that attribute whenever
    no node walked before the call offends. *)
Theorem C1_dunder_callee_rejected
    (parse : string -> result ast.node) (text : string) (tree obj : ast.node)
    (attr : string) (ctx : ast.expr_context) (args keywords : list ast.node) :
  parse text = Return tree ->
  ast.occurs_in (ast.Call (ast.Attribute obj attr ctx) args keywords) tree ->
  str.contains "__" attr = true ->
  exists reason,
    validate_expression parse text = Raise (Exn ValueError reason) /\
    forall pre post,
      ast.walk tree = pre ++ ast.Call (ast.Attribute obj attr ctx) args keywords :: post ->
      Forall (fun m => check_node m = None) pre ->
      reason = hazard_reason attr.
Proof.
  intros Hp Hocc Hdd.
  assert (check_node (ast.Call (ast.Attribute obj attr ctx) args keywords)
          = Some (Exn ValueError (hazard_reason attr))) as Hn.
  { simpl. rewrite Hdd, orb_true_r. done. }
  apply walk_occurs in Hocc.
  destruct (check_nodes_offender _ _ Hocc) as [[ty reason] He]; [by rewrite Hn|].
  pose proof (check_nodes_ValueError _ _ He) as Hty. simpl in Hty. subst ty.
  exists reason. unfold validate_expression. rewrite Hp, He.
  split; [done|].
  intros pre post Hw Hpre. rewrite Hw in He.
  rewrite (check_nodes_first pre post _ _ Hpre Hn) in He.
  by injection He as <-.
Qed.

Lemma C1_dunder_callee_rejected_witness :
  exists reason,
    validate_expression Py.parse Py.dunder_len_text = Raise (Exn ValueError reason) /\
    reason = "Expression not valid. Hazardous expression detected: __len__".
Proof.
  destruct (C1_dunder_callee_rejected Py.parse Py.dunder_len_text Py.dunder_len_tree
              (ast.Name "df" ast.Load) "__len__" ast.Load [] [])
    as (reason & He & Hfirst); [reflexivity | in_walk | reflexivity |].
  exists reason. split; [exact He|].
  apply (Hfirst [Py.dunder_len_tree;
                 ast.Expr (ast.Call (ast.Attribute (ast.Name "df" ast.Load) "__len__" ast.Load) [] [])]
                [ast.Attribute (ast.Name "df" ast.Load) "__len__" ast.Load;
                 ast.Name "df" ast.Load; ast.Context ast.Load; ast.Context ast.Load]).
  - reflexivity.
  - repeat constructor.
Defined.

(** C8, as stated, fails: [if os: import y] contains an import statement,
    and the reason it is rejected with is the one for module names, which
    does not mention import: the name [os] is walked before the import. *)
Lemma C8_import_reason_superseded :
  Py.parse Py.if_os_import_text = Return Py.if_os_import_tree /\
  ast.occurs_in (ast.Import [ast.alias "y" None]) Py.if_os_import_tree /\
  validate_expression Py.parse Py.if_os_import_text =
    Raise (Exn ValueError "Expression not valid. Module not allowed.") /\
  mentions_import "Expression not valid. Module not allowed." = false.
Proof.
  split; [reflexivity|]. split; [in_walk|]. split; reflexivity.
Qed.

(** C8, amended: a text that parses to a tree with an import statement
    anywhere in it, direct or [from] form, is rejected, and the tool raises
    the blocking error in the state it was called in, whatever the
    interpreter; the reason is the one that mentions import whenever no
    node walked before the import offends. *)
Theorem C8_import_rejected_never_executed {W : Type}
    (H : Host W) (data : value) (preview columns_context : string)
    (code_llm : string -> result string)
    (user_query response : string) (tree n : ast.node) (st : State W) :
  code_llm (format_prompt H preview columns_context user_query (getcwd H)) = Return response ->
  ast_parse H (adapt response) = Return tree ->
  ast.occurs_in n tree ->
  is_import n = true ->
  exists reason,
    validate_expression (ast_parse H) (adapt response) = Raise (Exn ValueError reason) /\
    (forall exec',
       _tool (with_exec H exec') data preview columns_context code_llm user_query st =
       (Raise (Exn RuntimeError ("Code not allowed: " +:+ reason)), st)) /\
    forall pre post,
      ast.walk tree = pre ++ n :: post ->
      Forall (fun m => check_node m = None) pre ->
      reason = import_reason /\ mentions_import reason = true.
Proof.
  intros Hr Hp Hocc Himp.
  assert (check_node n = Some (Exn ValueError import_reason)) as Hn.
  { destruct n; try done. }
  apply walk_occurs in Hocc.
  destruct (check_nodes_offender _ _ Hocc) as [[ty reason] He]; [by rewrite Hn|].
  pose proof (check_nodes_ValueError _ _ He) as Hty. simpl in Hty. subst ty.
  assert (validate_expression (ast_parse H) (adapt response)
          = Raise (Exn ValueError reason)) as Hv.
  { unfold validate_expression. by rewrite Hp, He. }
  exists reason. split; [done|]. split.
  - intros exec'. rewrite (tool_unfold _ _ _ _ _ _ response) by done.
    exact (execute_rejected (with_exec H exec') data _ _ st Hv).
  - intros pre post Hw Hpre. rewrite Hw in He.
    rewrite (check_nodes_first pre post _ _ Hpre Hn) in He.
    injection He as <-. done.
Qed.

Lemma C8_import_rejected_never_executed_witness :
  exists reason,
    validate_expression Py.parse Py.import_os_text = Raise (Exn ValueError reason) /\
    Py.tool Py.import_os_text Py.st0 =
      (Raise (Exn RuntimeError ("Code not allowed: " +:+ reason)), Py.st0) /\
    reason = "Expression not valid. Import not allowed.".
Proof.
  destruct (C8_import_rejected_never_executed Py.host Py.data "" "" Py.echo
              Py.import_os_text Py.import_os_text Py.import_os_tree
              (ast.Import [ast.alias "os" None]) Py.st0)
    as (reason & He & Htool & Hfirst); [reflexivity | reflexivity | in_walk | reflexivity |].
  exists reason. split; [exact He|]. split; [exact (Htool (exec Py.host))|].
  refine (proj1 (Hfirst [Py.import_os_tree] _ _ _)).
  - reflexivity.
  - repeat constructor.
Defined.

(** C10, as stated, fails: [import a] followed by [os = 1] has the name
    [os] as an assignment target, and the reason it is rejected with is
    the one for imports, not the one for module names. *)
Lemma C10_module_reason_superseded :
  Py.parse Py.import_then_os_text = Return Py.import_then_os_tree /\
  ast.occurs_in (ast.Name "os" ast.Store) Py.import_then_os_tree /\
  validate_expression Py.parse Py.import_then_os_text =
    Raise (Exn ValueError "Expression not valid. Import not allowed.") /\
  "Expression not valid. Import not allowed." <> module_reason.
Proof.
  split; [reflexivity|]. split; [in_walk|]. split; [reflexivity | done].
Qed.

(** C10, amended: the check on module names looks at the identifier of a
    [Name] node and not at its context, so a text that parses to a tree
    with a name spelled like a prohibited module anywhere in it, in load,
    store or delete context, is rejected; the reason is the one for module
    names whenever no node walked before the name offends. *)
Theorem C10_prohibited_name_any_context
    (parse : string -> result ast.node) (text : string) (tree : ast.node)
    (id : string) (ctx : ast.expr_context) :
  parse text = Return tree ->
  ast.occurs_in (ast.Name id ctx) tree ->
  id ∈ PROHIBITED_MODULES ->
  check_node (ast.Name id ctx) = Some (Exn ValueError module_reason) /\
  exists reason,
    validate_expression parse text = Raise (Exn ValueError reason) /\
    forall pre post,
      ast.walk tree = pre ++ ast.Name id ctx :: post ->
      Forall (fun m => check_node m = None) pre ->
      reason = module_reason.
Proof.
  intros Hp Hocc Hid.
  assert (check_node (ast.Name id ctx) = Some (Exn ValueError module_reason)) as Hn.
  { simpl. by rewrite bool_decide_eq_true_2. }
  split; [done|].
  apply walk_occurs in Hocc.
  destruct (check_nodes_offender _ _ Hocc) as [[ty reason] He]; [by rewrite Hn|].
  pose proof (check_nodes_ValueError _ _ He) as Hty. simpl in Hty. subst ty.
  exists reason. unfold validate_expression. rewrite Hp, He. split; [done|].
  intros pre post Hw Hpre. rewrite Hw in He.
  rewrite (check_nodes_first pre post _ _ Hpre Hn) in He.
  by injection He as <-.
Qed.

Lemma C10_prohibited_name_any_context_witness :
  exists reason,
    validate_expression Py.parse Py.os_del_text = Raise (Exn ValueError reason) /\
    reason = "Expression not valid. Module not allowed.".
Proof.
  destruct (C10_prohibited_name_any_context Py.parse Py.os_del_text Py.os_del_tree
              "os" ast.Del)
    as (_ & reason & He & Hfirst); [reflexivity | in_walk | by vm_compute |].
  exists reason. split; [exact He|].
  apply (Hfirst [Py.os_del_tree; ast.Delete [ast.Name "os" ast.Del]] [ast.Context ast.Del]).
  - reflexivity.
  - repeat constructor.
Defined.

(** ** Properties of the executor (C2 to C7, C9) *)

(** C4: a text that fails validation, because it does not parse or
    because a node of its tree offends, is not executed.  The tool raises
    a [RuntimeError] that wraps the reason of the validator, in the very
    state it was called in (so [sys.stdout] was never rebound), and it
    does so whatever the interpreter is (so [exec] was never reached);
    the outcome is an exception, not a returned string. *)
Theorem C4_rejected_text_blocked {W : Type}
    (H : Host W) (data : value) (preview columns_context : string)
    (code_llm : string -> result string)
    (user_query response : string) (st : State W) :
  code_llm (format_prompt H preview columns_context user_query (getcwd H)) = Return response ->
  (exists e0, ast_parse H (adapt response) = Raise e0 /\ isinstance e0 SyntaxError = true) \/
  (exists tree n, ast_parse H (adapt response) = Return tree /\
                  ast.occurs_in n tree /\ check_node n <> None) ->
  exists reason,
    validate_expression (ast_parse H) (adapt response) = Raise (Exn ValueError reason) /\
    _tool H data preview columns_context code_llm user_query st =
      (Raise (Exn RuntimeError ("Code not allowed: " +:+ reason)), st) /\
    (forall exec',
       _tool (with_exec H exec') data preview columns_context code_llm user_query st =
       (Raise (Exn RuntimeError ("Code not allowed: " +:+ reason)), st)) /\
    (forall s st', _tool H data preview columns_context code_llm user_query st <> (Return s, st')).
Proof.
  intros Hr Hfail.
  apply validate_expression_rejects in Hfail as [reason Hv].
  exists reason. split; [done|].
  assert (forall exec',
    _tool (with_exec H exec') data preview columns_context code_llm user_query st =
    (Raise (Exn RuntimeError ("Code not allowed: " +:+ reason)), st)) as Hany.
  { intros exec'. rewrite (tool_unfold _ _ _ _ _ _ response) by done.
    exact (execute_rejected (with_exec H exec') data _ _ st Hv). }
  assert (_tool H data preview columns_context code_llm user_query st =
          (Raise (Exn RuntimeError ("Code not allowed: " +:+ reason)), st)) as Htool.
  { rewrite (tool_unfold _ _ _ _ _ _ response) by done.
    exact (execute_rejected H data _ _ st Hv). }
  split; [done|]. split; [done|].
  intros s st'. by rewrite Htool.
Qed.

Lemma C4_rejected_text_blocked_witness :
  exists reason,
    validate_expression Py.parse Py.unclosed_text = Raise (Exn ValueError reason) /\
    Py.tool Py.unclosed_text Py.st0 =
      (Raise (Exn RuntimeError ("Code not allowed: " +:+ reason)), Py.st0).
Proof.
  destruct (C4_rejected_text_blocked Py.host Py.data "" "" Py.echo
              Py.unclosed_text Py.unclosed_text Py.st0)
    as (reason & Hv & Htool & _);
    [reflexivity | left; eexists; split; reflexivity |].
  exists reason. split; [exact Hv | exact Htool].
Defined.

(** C6: the built-in table holds exactly the fourteen names, the globals
    hold it under [__builtins__] next to the dataset under [df] and the
    library under [pd] and nothing else, the locals start empty; and the
    namespace is made anew at every call: the interpreter is only ever
    started on this one namespace, so two interpreters that agree on it
    make the same tool, on every query and from every state. *)
Theorem C6_namespace_exact_and_fresh {W : Type}
    (H : Host W) (data : value) (preview columns_context : string)
    (code_llm : string -> result string)
    (exec1 exec2 : code -> gmap string value -> gmap string value -> State W
                   -> result unit * State W) :
  (forall c st,
     exec1 c (safe_globals data (pd H)) safe_locals st =
     exec2 c (safe_globals data (pd H)) safe_locals st) ->
  dom safe_builtins =
    ({[ "print"; "len"; "range"; "str"; "int"; "float"; "list"; "dict"; "set";
        "min"; "max"; "sum"; "enumerate"; "zip" ]} : gset string) /\
  dom (safe_globals data (pd H)) = ({[ "__builtins__"; "df"; "pd" ]} : gset string) /\
  safe_globals data (pd H) !! "__builtins__" = Some (VDict safe_builtins) /\
  safe_globals data (pd H) !! "df" = Some data /\
  safe_globals data (pd H) !! "pd" = Some (pd H) /\
  safe_locals = ∅ /\
  forall user_query st,
    _tool (with_exec H exec1) data preview columns_context code_llm user_query st =
    _tool (with_exec H exec2) data preview columns_context code_llm user_query st.
Proof.
  intros Hagree.
  split; [unfold safe_builtins, dict_literal; simpl; rewrite !dom_insert_L, dom_empty_L; set_solver|].
  split; [unfold safe_globals, dict_literal; simpl; rewrite !dom_insert_L, dom_empty_L; set_solver|].
  split; [unfold safe_globals, dict_literal; simpl; by simplify_map_eq|].
  split; [unfold safe_globals, dict_literal; simpl; by simplify_map_eq|].
  split; [unfold safe_globals, dict_literal; simpl; by simplify_map_eq|].
  split; [done|].
  intros user_query st. by apply tool_same_for_agreeing_interpreters.
Qed.

Lemma C6_namespace_exact_and_fresh_witness :
  dom (safe_globals Py.data (pd Py.host)) = ({[ "__builtins__"; "df"; "pd" ]} : gset string) /\
  safe_globals Py.data (pd Py.host) !! "df" = Some (VRef Py.dataset_loc) /\
  forall user_query st,
    _tool (with_exec Py.host (exec_of Py.run)) Py.data "" "" Py.echo user_query st =
    _tool (with_exec Py.host (exec Py.host)) Py.data "" "" Py.echo user_query st.
Proof.
  destruct (C6_namespace_exact_and_fresh Py.host Py.data "" "" Py.echo
              (exec_of Py.run) (exec Py.host))
    as (_ & Hdom & _ & Hdf & _ & _ & Hsame); [intros c st; reflexivity |].
  split; [exact Hdom|]. split; [exact Hdf | exact Hsame].
Defined.






(** C2 does not hold of the code: the accepted text
    [pd.compat.sys.exit()] raises [SystemExit], which the second [try] does
    not catch; the exception leaves the tool with [sys.stdout] still bound
    to the capture buffer (file 1) and not to what it was bound to before
    (file 0). *)
Lemma C2_stdout_left_redirected :
  validate_expression Py.parse Py.sys_exit_text = Return Py.sys_exit_tree /\
  Py.tool Py.sys_exit_text Py.st0 =
    (Raise (Exn SystemExit ""), mkState 1 [""; ""] Py.heap0) /\
  sys_stdout Py.st0 = 0 /\
  sys_stdout (snd (Py.tool Py.sys_exit_text Py.st0)) = length (files Py.st0) /\
  sys_stdout (snd (Py.tool Py.sys_exit_text Py.st0)) <> sys_stdout Py.st0.
Proof.
  split; [reflexivity|]. split; [reflexivity|]. split; [reflexivity|].
  split; [reflexivity|]. vm_compute. lia.
Qed.




(** An interpreter that only prints, started in the redirected state,
    leaves what it printed in the new buffer. *)
Lemma exec_of_redirected {W : Type}
    (run : code -> gmap string value -> gmap string value -> W -> result unit * string * W)
    (c : code) (g l : gmap string value) (st : State W)
    (r : result unit) (printed : string) (w : W) :
  run c g l (heap st) = (r, printed, w) ->
  exec_of run c g l (redirected st) =
  (r, mkState (length (files st)) (files st ++ [printed]) w).
Proof.
  intros Hrun. unfold exec_of, redirected. simpl. rewrite Hrun. simpl.
  f_equal. f_equal.
  rewrite <- (Nat.add_0_r (length (files st))) at 1.
  by rewrite alter_app_r.
Qed.

Lemma captured_new_buffer {W : Type} (st : State W) (loc' : loc) (printed : string) (w : W) :
  captured st (mkState loc' (files st ++ [printed]) w) = printed.
Proof.
  unfold captured. simpl. by rewrite list_lookup_middle.
Qed.




(** ** The worked programs *)

Example run_print_sum : fst (Py.tool "print(1+1)" Py.st0) = Return "2".
Proof. reflexivity. Qed.

Example run_import_os :
  Py.tool Py.import_os_text Py.st0 =
  (Raise (Exn RuntimeError "Code not allowed: Expression not valid. Import not allowed."),
   Py.st0).
Proof. reflexivity. Qed.

Example run_dunder_import :
  Py.tool "print(__import__('os').system('ls'))" Py.st0 =
  (Raise (Exn RuntimeError
     "Code not allowed: Expression not valid. Hazardous expression detected: __import__"),
   Py.st0).
Proof. reflexivity. Qed.

Example run_division :
  fst (Py.tool "x = 1/0" Py.st0) =
  Return ("Error executing Pandas code: division by zero" +:+ Py.newline +:+
          "Generated code:" +:+ Py.newline +:+ "x = 1/0").
Proof. reflexivity. Qed.

Example run_assign : fst (Py.tool "x = 5" Py.st0) = Return no_output_message.
Proof. reflexivity. Qed.

Example run_len_df : fst (Py.tool "print(len(df))" Py.st0) = Return "3".
Proof. reflexivity. Qed.

Example run_dunder_class : fst (Py.tool "print(df.__class__)" Py.st0) = Return "<class 'dict'>".
Proof. reflexivity. Qed.

(** After a failing program the sink is the one it was, and the output of
    the program that follows is captured as it should be. *)
Example run_after_failure :
  tool_calls Py.tool ["x = 1/0"; "print(1+1)"] Py.st0 =
  ([Return (error_message (Exn ZeroDivisionError "division by zero") "x = 1/0"); Return "2"],
   mkState 0 [""; ""; "2" +:+ Py.newline] Py.heap0).
Proof. reflexivity. Qed.

(** A prohibited name is refused as an assignment target too. *)
Example run_os_store :
  Py.tool "os = 1" Py.st0 =
  (Raise (Exn RuntimeError "Code not allowed: Expression not valid. Module not allowed."),
   Py.st0).
Proof. reflexivity. Qed.


(** * Further properties *)

(** ** The adapted answer ([_tool], the line after the model call) *)

Lemma prefix_cons_same (a : ascii) (p s : string) :
  String.prefix (String a p) (String a s) = String.prefix p s.
Proof. simpl. by destruct (Ascii.ascii_dec a a). Qed.

Lemma prefix_cons_other (a c : ascii) (p s : string) :
  a <> c -> String.prefix (String a p) (String c s) = false.
Proof. intros Hne. simpl. destruct (Ascii.ascii_dec a c); [congruence | done]. Qed.

Lemma prefix_split (a s : string) :
  String.prefix a s = true -> exists r, s = a +:+ r.
Proof.
  revert s. induction a as [|c a IH]; intros s Hp.
  - by exists s.
  - destruct s as [|d s]; [done|]. simpl in Hp.
    destruct (Ascii.ascii_dec c d) as [<-|]; [|done].
    destruct (IH s Hp) as [r ->]. by exists r.
Qed.

Lemma contains_split (sub s : string) :
  str.contains sub s = true -> exists l r, s = l +:+ sub +:+ r.
Proof.
  induction s as [|c s IH]; rewrite contains_unfold.
  - rewrite orb_false_r. intros [r Hr]%prefix_split. by exists "", r.
  - intros [Hp | Hc]%orb_true_iff.
    + apply prefix_split in Hp as [r Hr]. by exists "", r.
    + destruct (IH Hc) as (l & r & ->). by exists (String c l), r.
Qed.

(** What a part of a text contains, the text contains. *)
Lemma contains_inside (sub l y r : string) :
  str.contains sub y = true -> str.contains sub (l +:+ y +:+ r) = true.
Proof.
  intros (a & b & ->)%contains_split.
  replace (l +:+ (a +:+ sub +:+ b) +:+ r) with ((l +:+ a) +:+ sub +:+ (b +:+ r)).
  - apply contains_append.
  - by rewrite !append_assoc.
Qed.

Lemma contains_strip (sub s : string) :
  str.contains sub (str.strip s) = true -> str.contains sub s = true.
Proof.
  intros Hc. destruct (strip_trimmed s) as [(l & r & Hs & _) _].
  rewrite Hs. by apply contains_inside.
Qed.

Lemma replace_from_0 (old new : string) (c : ascii) (r : string) :
  str.replace_from old new 0 (String c r) =
  if String.prefix old (String c r)
  then new +:+ str.replace_from old new (String.length old - 1) r
  else String c (str.replace_from old new 0 r).
Proof. reflexivity. Qed.

(** Where the pattern does not occur, nothing is replaced. *)
Lemma replace_absent (old new s : string) :
  str.contains old s = false -> str.replace old new s = s.
Proof.
  unfold str.replace. induction s as [|c s IH]; [done|].
  rewrite contains_unfold. intros [Hp Hc]%orb_false_iff.
  rewrite replace_from_0, Hp, IH by done. done.
Qed.

(** Taking the fences out leaves no fence: within a run of backquotes the
    occurrences are taken from the left, and fewer than three are left. *)
Lemma replace_fence_bounded (n : nat) :
  forall s, String.length s <= n ->
  str.contains "```" (str.replace "```" "" s) = false /\
  (String.prefix "``" s = false -> String.prefix "``" (str.replace "```" "" s) = false) /\
  (String.prefix "`" s = false -> String.prefix "`" (str.replace "```" "" s) = false).
Proof.
  unfold str.replace.
  induction n as [|n IH]; intros s Hlen.
  - destruct s; [done | simpl in Hlen; lia].
  - destruct s as [|c s]; [done|].
    simpl in Hlen. rewrite replace_from_0.
    destruct (Ascii.ascii_dec "`" c) as [<-|Hne].
    + rewrite prefix_cons_same.
      destruct (String.prefix "``" s) eqn:H2.
      * apply prefix_split in H2 as [t ->].
        change (str.replace_from "```" "" (String.length "```" - 1) ("``" +:+ t))
          with (str.replace_from "```" "" 0 t).
        rewrite append_nil_l.
        assert (String.length t <= n) as Ht.
        { rewrite !append_cons, append_nil_l in Hlen. simpl in Hlen. lia. }
        destruct (IH t Ht) as (Hc & _ & _).
        split; [done|]. split; intros Hp.
        -- rewrite prefix_cons_same in Hp. rewrite !append_cons, append_nil_l in Hp.
           rewrite prefix_cons_same in Hp. by destruct t.
        -- rewrite prefix_cons_same in Hp. rewrite !append_cons in Hp. done.
      * destruct (IH s ltac:(lia)) as (Hc & H2' & H1').
        split; [|split].
        -- rewrite contains_unfold, prefix_cons_same, Hc, (H2' H2). done.
        -- rewrite !prefix_cons_same. intros Hp. by apply H1'.
        -- intros Hp. rewrite prefix_cons_same in Hp. by destruct s.
    + rewrite (prefix_cons_other _ _ _ _ Hne).
      destruct (IH s ltac:(lia)) as (Hc & _ & _).
      split; [|split].
      * by rewrite contains_unfold, (prefix_cons_other _ _ _ _ Hne), Hc.
      * intros _. by apply prefix_cons_other.
      * intros _. by apply prefix_cons_other.
Qed.

Lemma replace_fence_free (s : string) :
  str.contains "```" (str.replace "```" "" s) = false.
Proof. exact (proj1 (replace_fence_bounded (String.length s) s (le_n _))). Qed.

Lemma adapt_fence_free (response : string) :
  str.contains "```" (adapt response) = false.
Proof.
  unfold adapt.
  destruct (str.contains "```" (str.strip _)) eqn:Hc; [|done].
  apply contains_strip in Hc. by rewrite replace_fence_free in Hc.
Qed.


Lemma lstrip_fixed (s : string) :
  (forall c, str.first_char s = Some c -> str.isspace c = false) -> str.lstrip s = s.
Proof.
  destruct s as [|c s]; [done|]. intros Hf. simpl. by rewrite (Hf c).
Qed.

Lemma rstrip_fixed (s : string) :
  (forall c, str.last_char s = Some c -> str.isspace c = false) -> str.rstrip s = s.
Proof.
  induction s as [|c s IH]; [done|]. intros Hl. simpl.
  destruct s as [|d s].
  - simpl. by rewrite (Hl c).
  - rewrite IH by (intros x Hx; by apply Hl). done.
Qed.

Lemma strip_strip (s : string) : str.strip (str.strip s) = str.strip s.
Proof.
  destruct (strip_trimmed s) as (_ & Hf & Hl).
  unfold str.strip at 1. by rewrite (lstrip_fixed _ Hf), (rstrip_fixed _ Hl).
Qed.

(** X2: adapting is idempotent: an answer that has been adapted is not
    changed by adapting it again. *)
Theorem X2_adapt_idempotent (response : string) :
  adapt (adapt response) = adapt response.
Proof.
  pose proof (adapt_fence_free response) as Hfree.
  assert (str.contains "```python" (adapt response) = false) as Hpy.
  { destruct (str.contains "```python" (adapt response)) eqn:Hc; [|done].
    apply contains_split in Hc as (l & r & Hs).
    rewrite Hs in Hfree.
    change ("```python" +:+ r) with ("```" +:+ ("python" +:+ r)) in Hfree.
    by rewrite contains_append in Hfree. }
  unfold adapt at 1.
  rewrite (replace_absent _ _ _ Hpy), (replace_absent _ _ _ Hfree).
  unfold adapt. apply strip_strip.
Qed.

(** ** More of the validator *)

Lemma check_nodes_walk_None (t : ast.node) :
  check_nodes (ast.walk t) = None <-> forall n, ast.occurs_in n t -> check_node n = None.
Proof.
  rewrite check_nodes_None. split; intros Hall n Hn; apply Hall; by apply walk_occurs.
Qed.

(** A text whose tree holds a node that offends is refused, with the
    reason of that node when none offends before it. *)
Lemma offender_rejected (parse : string -> result ast.node) (text : string)
    (tree n : ast.node) (reason0 : string) :
  parse text = Return tree ->
  ast.occurs_in n tree ->
  check_node n = Some (Exn ValueError reason0) ->
  exists reason,
    validate_expression parse text = Raise (Exn ValueError reason) /\
    forall pre post,
      ast.walk tree = pre ++ n :: post ->
      Forall (fun m => check_node m = None) pre ->
      reason = reason0.
Proof.
  intros Hp Hocc Hn. apply walk_occurs in Hocc.
  destruct (check_nodes_offender _ _ Hocc) as [[ty reason] He]; [by rewrite Hn|].
  pose proof (check_nodes_ValueError _ _ He) as Hty. simpl in Hty. subst ty.
  exists reason. unfold validate_expression. rewrite Hp, He. split; [done|].
  intros pre post Hw Hpre. rewrite Hw in He.
  rewrite (check_nodes_first pre post _ _ Hpre Hn) in He.
  by injection He as <-.
Qed.

(** X3: a text that parses and in which a prohibited callable ([eval],
    [exec], [open], [compile], [__import__], [getattr], [input]) is called
    by its bare name is refused; when no node walked before the call
    offends, the reason is the hazard message, which names the callable. *)
Theorem X3_prohibited_callable_by_name_rejected
    (parse : string -> result ast.node) (text : string) (tree : ast.node)
    (id : string) (ctx : ast.expr_context) (args keywords : list ast.node) :
  parse text = Return tree ->
  ast.occurs_in (ast.Call (ast.Name id ctx) args keywords) tree ->
  id ∈ PROHIBITED_FUNCTIONS ->
  exists reason,
    validate_expression parse text = Raise (Exn ValueError reason) /\
    forall pre post,
      ast.walk tree = pre ++ ast.Call (ast.Name id ctx) args keywords :: post ->
      Forall (fun m => check_node m = None) pre ->
      reason = hazard_reason id /\ str.contains id reason = true.
Proof.
  intros Hp Hocc Hid.
  destruct (offender_rejected parse text tree _ (hazard_reason id) Hp Hocc)
    as (reason & Hv & Hfirst).
  { simpl. by rewrite bool_decide_eq_true_2. }
  exists reason. split; [done|]. intros pre post Hw Hpre.
  rewrite (Hfirst pre post Hw Hpre). split; [done|]. apply contains_suffix.
Qed.

Lemma X3_prohibited_callable_by_name_rejected_witness :
  exists reason,
    validate_expression Py2.parse Py2.eval_call_text = Raise (Exn ValueError reason) /\
    reason = "Expression not valid. Hazardous expression detected: eval".
Proof.
  destruct (X3_prohibited_callable_by_name_rejected Py2.parse Py2.eval_call_text
              Py2.eval_call_tree "eval" ast.Load [ast.Constant (ast.CStr "1")] [])
    as (reason & Hv & Hfirst); [reflexivity | in_walk | by vm_compute |].
  exists reason. split; [exact Hv|].
  refine (proj1 (Hfirst
    [Py2.eval_call_tree;
     ast.Expr (ast.Call (ast.Name "print" ast.Load)
                 [ast.Call (ast.Name "eval" ast.Load) [ast.Constant (ast.CStr "1")] []] []);
     ast.Call (ast.Name "print" ast.Load)
       [ast.Call (ast.Name "eval" ast.Load) [ast.Constant (ast.CStr "1")] []] [];
     ast.Name "print" ast.Load]
    [ast.Context ast.Load; ast.Name "eval" ast.Load; ast.Constant (ast.CStr "1");
     ast.Context ast.Load] _ _)).
  - reflexivity.
  - repeat constructor.
Defined.

(** X4: a method call whose method is named like a prohibited callable is
    refused whatever the object, the dataset included ([df.eval(...)],
    [f.open()]); when no node walked before the call offends, the reason
    names the method. *)
Theorem X4_method_named_like_prohibited_callable_rejected
    (parse : string -> result ast.node) (text : string) (tree obj : ast.node)
    (attr : string) (ctx : ast.expr_context) (args keywords : list ast.node) :
  parse text = Return tree ->
  ast.occurs_in (ast.Call (ast.Attribute obj attr ctx) args keywords) tree ->
  attr ∈ PROHIBITED_FUNCTIONS ->
  exists reason,
    validate_expression parse text = Raise (Exn ValueError reason) /\
    forall pre post,
      ast.walk tree = pre ++ ast.Call (ast.Attribute obj attr ctx) args keywords :: post ->
      Forall (fun m => check_node m = None) pre ->
      reason = hazard_reason attr.
Proof.
  intros Hp Hocc Hid.
  apply (offender_rejected parse text tree _ (hazard_reason attr) Hp Hocc).
  simpl. by rewrite bool_decide_eq_true_2.
Qed.

Lemma X4_method_named_like_prohibited_callable_rejected_witness :
  exists reason,
    validate_expression Py2.parse Py2.df_eval_text = Raise (Exn ValueError reason) /\
    reason = "Expression not valid. Hazardous expression detected: eval".
Proof.
  destruct (X4_method_named_like_prohibited_callable_rejected Py2.parse Py2.df_eval_text
              Py2.df_eval_tree (ast.Name "df" ast.Load) "eval" ast.Load
              [ast.Constant (ast.CStr "a")] [])
    as (reason & Hv & Hfirst); [reflexivity | in_walk | by vm_compute |].
  exists reason. split; [exact Hv|].
  apply (Hfirst
    [Py2.df_eval_tree;
     ast.Expr (ast.Call (ast.Attribute (ast.Name "df" ast.Load) "eval" ast.Load)
                 [ast.Constant (ast.CStr "a")] [])]
    [ast.Attribute (ast.Name "df" ast.Load) "eval" ast.Load; ast.Constant (ast.CStr "a");
     ast.Name "df" ast.Load; ast.Context ast.Load; ast.Context ast.Load]).
  - reflexivity.
  - repeat constructor.
Defined.

Lemma occurs_in_module (n : ast.node) (body : list ast.node) :
  ast.occurs_in n (ast.Module_ body) <->
  n = ast.Module_ body \/ exists s, In s body /\ ast.occurs_in n s.
Proof. by rewrite occurs_in_unfold. Qed.

Lemma module_accepted (body : list ast.node) :
  check_nodes (ast.walk (ast.Module_ body)) = None <->
  forall s, In s body -> check_nodes (ast.walk s) = None.
Proof.
  rewrite check_nodes_walk_None. split.
  - intros Hall s Hs. apply check_nodes_walk_None. intros n Hn.
    apply Hall. apply occurs_in_module. right. by exists s.
  - intros Hall n [-> | (s & Hs & Hn)]%occurs_in_module; [done|].
    specialize (Hall s Hs). rewrite check_nodes_walk_None in Hall. by apply Hall.
Qed.

(** X5: acceptance goes statement by statement: a program made of the
    statements of two programs, one after the other, is accepted exactly
    when both are; so the order of the statements does not matter for
    acceptance (it can matter for the reason of a refusal). *)
Theorem X5_acceptance_statement_by_statement
    (parse : string -> result ast.node) (text1 text2 text : string)
    (body1 body2 : list ast.node) :
  parse text1 = Return (ast.Module_ body1) ->
  parse text2 = Return (ast.Module_ body2) ->
  parse text = Return (ast.Module_ (body1 ++ body2)) ->
  validate_expression parse text = Return (ast.Module_ (body1 ++ body2)) <->
  validate_expression parse text1 = Return (ast.Module_ body1) /\
  validate_expression parse text2 = Return (ast.Module_ body2).
Proof.
  intros H1 H2 H12. unfold validate_expression. rewrite H1, H2, H12.
  assert (forall body, match check_nodes (ast.walk (ast.Module_ body)) with
                       | Some e => Raise e
                       | None => Return (ast.Module_ body)
                       end = Return (ast.Module_ body) <->
                       forall s, In s body -> check_nodes (ast.walk s) = None) as Hacc.
  { intros body. rewrite <- module_accepted.
    destruct (check_nodes (ast.walk (ast.Module_ body))); split; done. }
  rewrite !Hacc. split.
  - intros Hall. split; intros s Hs; apply Hall; apply in_app_iff; auto.
  - intros [Ha Hb] s [Hs | Hs]%in_app_iff; auto.
Qed.

Lemma X5_acceptance_statement_by_statement_witness :
  validate_expression Py2.parse Py2.two_statements_text = Return Py2.two_statements_tree <->
  validate_expression Py2.parse Py.assign_text = Return Py.assign_tree /\
  validate_expression Py2.parse Py.len_df_text = Return Py.len_df_tree.
Proof.
  apply (X5_acceptance_statement_by_statement Py2.parse Py.assign_text Py.len_df_text
           Py2.two_statements_text); reflexivity.
Defined.

(** X6: what acceptance means in terms of the tree: the validator returns
    the parsed tree, unchanged, exactly when the text parses and its tree
    has no import statement, no name of a prohibited module, no call of a
    prohibited callable by bare name, and no method call whose method is
    named like a prohibited callable or has a double underscore in its
    name. *)
Theorem X6_accepted_exactly_when_clean
    (parse : string -> result ast.node) (text : string) (tree : ast.node) :
  validate_expression parse text = Return tree <->
  parse text = Return tree /\
  forall n, ast.occurs_in n tree ->
    is_import n = false /\
    (forall id ctx, n = ast.Name id ctx -> id ∉ PROHIBITED_MODULES) /\
    (forall id ctx args keywords,
       n = ast.Call (ast.Name id ctx) args keywords -> id ∉ PROHIBITED_FUNCTIONS) /\
    (forall obj attr ctx args keywords,
       n = ast.Call (ast.Attribute obj attr ctx) args keywords ->
       (attr ∉ PROHIBITED_FUNCTIONS) /\ str.contains "__" attr = false).
Proof.
  rewrite validate_expression_accepts.
  split.
  - intros [Hp Hall]. split; [done|]. intros n Hn. specialize (Hall n Hn).
    split; [by destruct n|]. split; [|split].
    + intros id ctx ->. simpl in Hall. by case_bool_decide.
    + intros id ctx args keywords ->. simpl in Hall. by case_bool_decide.
    + intros obj attr ctx args keywords ->. simpl in Hall.
      case_bool_decide; [done|]. split; [done|].
      by destruct (str.contains "__" attr).
  - intros [Hp Hall]. split; [done|]. intros n Hn. specialize (Hall n Hn).
    destruct Hall as (Himp & Hname & Hcall & Hmeth).
    destruct n as [| | | | | | | |id ctx|?|func args keywords| | | | | | |]; try done.
    + simpl. rewrite bool_decide_eq_false_2; [done | by eapply Hname].
    + destruct func as [| | | | | | | |id ctx|obj attr ctx| | | | | | | |]; try done.
      * simpl. rewrite bool_decide_eq_false_2; [done | by eapply Hcall].
      * simpl. destruct (Hmeth obj attr ctx args keywords eq_refl) as [Hn1 ->].
        by rewrite bool_decide_eq_false_2.
Qed.

Lemma dom_safe_builtins :
  dom safe_builtins =
    ({[ "print"; "len"; "range"; "str"; "int"; "float"; "list"; "dict"; "set";
        "min"; "max"; "sum"; "enumerate"; "zip" ]} : gset string).
Proof.
  unfold safe_builtins, dict_literal; simpl; rewrite !dom_insert_L, dom_empty_L; set_solver.
Qed.

(** X7: the two tables do not get in each other's way: every name the
    executor puts in the namespace (the fourteen built-ins, [df] and [pd])
    can be named, in any context, and called by its bare name without the
    validator objecting. *)
Theorem X7_offered_names_are_not_refused
    (name : string) (data pd : value) (ctx : ast.expr_context)
    (args keywords : list ast.node) :
  name ∈ dom safe_builtins \/ (name ∈ dom (safe_globals data pd) /\ name <> "__builtins__") ->
  check_node (ast.Name name ctx) = None /\
  check_node (ast.Call (ast.Name name ctx) args keywords) = None.
Proof.
  intros Hname.
  assert (name ∈ ({[ "print"; "len"; "range"; "str"; "int"; "float"; "list"; "dict";
                     "set"; "min"; "max"; "sum"; "enumerate"; "zip"; "df"; "pd" ]}
                  : gset string)) as Hin.
  { destruct Hname as [Hb | [Hg Hne]].
    - rewrite dom_safe_builtins in Hb. set_unfold. set_unfold in Hb. tauto.
    - unfold safe_globals, dict_literal in Hg. simpl in Hg.
      rewrite !dom_insert_L, dom_empty_L in Hg. set_unfold. set_unfold in Hg. tauto. }
  clear Hname. set_unfold in Hin.
  destruct_or!; subst name; by vm_compute.
Qed.

Lemma X7_offered_names_are_not_refused_witness :
  check_node (ast.Name "len" ast.Load) = None /\
  check_node (ast.Call (ast.Name "len" ast.Load) [ast.Name "df" ast.Load] []) = None.
Proof.
  apply (X7_offered_names_are_not_refused "len" Py.data (pd Py.host)).
  left. by vm_compute.
Defined.

(** ** More of the executor *)


(** An accepted text that does not compile: a [ValueError] is turned into
    a [RuntimeError], anything else passes through; in the state the call
    found. *)
Lemma execute_compile_fails {W : Type} (H : Host W) (data : value)
    (generated_code : string) (tree : ast.node) (e : exn) (st : State W) :
  validate_expression (ast_parse H) generated_code = Return tree ->
  compile H tree = Raise e ->
  execute_generated_code H data generated_code st =
  (if isinstance e ValueError
   then Raise (Exn RuntimeError ("Code not allowed: " +:+ exc_str e))
   else Raise e, st).
Proof.
  intros Hv Hc.
  unfold execute_generated_code, bind, try_except, lift, raise.
  rewrite Hv, Hc. by destruct (isinstance e ValueError).
Qed.

(** X8: failures before the run that are not refusals of the validator.
    When the parser raises something that is not a [SyntaxError], or the
    text is accepted and the byte-compiler raises, the tool does not
    reach the interpreter and leaves the state as it is; it raises the
    [RuntimeError] "Code not allowed" only for a [ValueError], and lets
    any other exception through as it is (a [SyntaxError] of the
    compiler, as for [return] outside a function, among them). *)
Theorem X8_parser_and_compiler_failures {W : Type}
    (H : Host W) (data : value) (preview columns_context : string)
    (code_llm : string -> result string)
    (user_query response : string) (e : exn) (st : State W) :
  code_llm (format_prompt H preview columns_context user_query (getcwd H)) = Return response ->
  (ast_parse H (adapt response) = Raise e /\ isinstance e SyntaxError = false) \/
  (exists tree, validate_expression (ast_parse H) (adapt response) = Return tree /\
                compile H tree = Raise e) ->
  forall exec',
    _tool (with_exec H exec') data preview columns_context code_llm user_query st =
    (if isinstance e ValueError
     then Raise (Exn RuntimeError ("Code not allowed: " +:+ exc_str e))
     else Raise e, st).
Proof.
  intros Hr Hfail exec'.
  rewrite (tool_unfold _ _ _ _ _ _ response) by done.
  destruct Hfail as [[Hp Hs] | (tree & Hv & Hc)].
  - apply execute_raises. unfold validate_expression. simpl. by rewrite Hp, Hs.
  - by apply (execute_compile_fails (with_exec H exec') data _ tree).
Qed.

Lemma X8_parser_and_compiler_failures_witness :
  Py2.tool Py2.return_text Py.st0 =
    (Raise (Exn SyntaxError "'return' outside function (<expr>, line 1)"), Py.st0) /\
  Py2.tool Py2.nul_text Py.st0 =
    (Raise (Exn RuntimeError
       "Code not allowed: source code string cannot contain null bytes"), Py.st0).
Proof.
  split.
  - apply (X8_parser_and_compiler_failures Py2.host Py.data "" "" Py.echo
             Py2.return_text Py2.return_text
             (Exn SyntaxError "'return' outside function (<expr>, line 1)") Py.st0
             eq_refl).
    right. exists Py2.return_tree. split; reflexivity.
  - apply (X8_parser_and_compiler_failures Py2.host Py.data "" "" Py.echo
             Py2.nul_text Py2.nul_text
             (Exn ValueError "source code string cannot contain null bytes") Py.st0
             eq_refl).
    left. split; reflexivity.
Defined.






(** With an interpreter that only prints, the whole of a call. *)
Lemma tool_print_only {W : Type} (H : Host W)
    (run : code -> gmap string value -> gmap string value -> W -> result unit * string * W)
    (data : value) (preview columns_context : string)
    (code_llm : string -> result string) (user_query : string) (st : State W) :
  _tool (with_exec H (exec_of run)) data preview columns_context code_llm user_query st =
  match code_llm (format_prompt H preview columns_context user_query (getcwd H)) with
  | Raise e => (Raise e, st)
  | Return response =>
      match validate_expression (ast_parse H) (adapt response) with
      | Raise e =>
          (if isinstance e ValueError
           then Raise (Exn RuntimeError ("Code not allowed: " +:+ exc_str e))
           else Raise e, st)
      | Return tree =>
          match compile H tree with
          | Raise e =>
              (if isinstance e ValueError
               then Raise (Exn RuntimeError ("Code not allowed: " +:+ exc_str e))
               else Raise e, st)
          | Return c =>
              match run c (safe_globals data (pd H)) safe_locals (heap st) with
              | (Return _, printed, w) =>
                  (Return (if String.eqb (str.strip printed) "" then no_output_message
                           else str.strip printed),
                   mkState (sys_stdout st) (files st ++ [printed]) w)
              | (Raise e, printed, w) =>
                  if isinstance e Exception
                  then (Return (error_message e (adapt response)),
                        mkState (sys_stdout st) (files st ++ [printed]) w)
                  else (Raise e, mkState (length (files st)) (files st ++ [printed]) w)
              end
          end
      end
  end.
Proof.
  unfold _tool, bind, lift. simpl.
  destruct (code_llm _) as [response|e]; [|done].
  destruct (validate_expression (ast_parse H) (adapt response)) as [tree|e] eqn:Hv.
  - destruct (compile H tree) as [c|e] eqn:Hc.
    + rewrite (execute_accepted (with_exec H (exec_of run)) _ _ tree c) by done.
      simpl. destruct (run c _ _ (heap st)) as [[r printed] w] eqn:Hrun.
      rewrite (exec_of_redirected run c _ _ st r printed w Hrun).
      destruct r as [[]|e].
      * unfold restored. by rewrite captured_new_buffer.
      * by destruct (isinstance e Exception).
    + by apply (execute_compile_fails (with_exec H (exec_of run)) data _ tree).
  - by apply (execute_raises (with_exec H (exec_of run))).
Qed.

(** X11: with an interpreter that only prints, a call of the tool never
    writes to the real standard output or to any file there was: the
    files are the ones there were, followed by at most one new buffer,
    which holds what the program printed. *)
Theorem X11_output_goes_to_a_new_buffer_only {W : Type} (H : Host W)
    (run : code -> gmap string value -> gmap string value -> W -> result unit * string * W)
    (data : value) (preview columns_context : string)
    (code_llm : string -> result string) (user_query : string) (st : State W) :
  exists new,
    files (snd (_tool (with_exec H (exec_of run)) data preview columns_context
                  code_llm user_query st)) = files st ++ new /\
    length new <= 1.
Proof.
  rewrite tool_print_only.
  assert (exists new : list string, files st = files st ++ new /\ length new <= 1) as Hsame.
  { exists []. split; [by rewrite app_nil_r | simpl; lia]. }
  destruct (code_llm _) as [response|e]; [|exact Hsame].
  destruct (validate_expression _ _) as [tree|e]; [|exact Hsame].
  destruct (compile H tree) as [c|e]; [|exact Hsame].
  destruct (run c _ _ (heap st)) as [[[[]|e] printed] w].
  - exists [printed]. simpl. split; [done | lia].
  - destruct (isinstance e Exception); exists [printed]; simpl; (split; [done | lia]).
Qed.

(** X12: with an interpreter that only prints, the outcome of a call and
    the heap it leaves depend on the heap alone: neither what
    [sys.stdout] is bound to when the tool is called, nor what earlier
    programs printed, has any influence. *)
Theorem X12_outcome_depends_on_heap_only {W : Type} (H : Host W)
    (run : code -> gmap string value -> gmap string value -> W -> result unit * string * W)
    (data : value) (preview columns_context : string)
    (code_llm : string -> result string) (user_query : string) (st1 st2 : State W) :
  heap st1 = heap st2 ->
  let tool := _tool (with_exec H (exec_of run)) data preview columns_context code_llm in
  fst (tool user_query st1) = fst (tool user_query st2) /\
  heap (snd (tool user_query st1)) = heap (snd (tool user_query st2)).
Proof.
  intros Hheap tool. unfold tool. rewrite !tool_print_only, Hheap.
  destruct (code_llm _) as [response|e]; [|done].
  destruct (validate_expression _ _) as [tree|e]; [|done].
  destruct (compile H tree) as [c|e]; [|done].
  destruct (run c _ _ (heap st2)) as [[[[]|e] printed] w]; [done|].
  by destruct (isinstance e Exception).
Qed.

Lemma X12_outcome_depends_on_heap_only_witness :
  fst (Py.tool Py.len_df_text (mkState 7 ["earlier"; "output"] Py.heap0)) = Return "3" /\
  fst (Py.tool Py.len_df_text Py.st0) = Return "3".
Proof.
  destruct (X12_outcome_depends_on_heap_only Py.host Py.run Py.data "" "" Py.echo
              Py.len_df_text (mkState 7 ["earlier"; "output"] Py.heap0) Py.st0 eq_refl)
    as (Hsame & _).
  split; [|reflexivity].
  etransitivity; [exact Hsame | reflexivity].
Defined.

(** ** Start-up and the query loop (main.py) *)

(** X13: the block that looks for the API key never changes the
    environment: with the key set (even to the empty string) the
    environment stays as it is, and with the key absent the assignment
    raises a [TypeError], since [os.getenv] gives [None]. *)
Theorem X13_api_key_block (environ : gmap string string) :
  (forall v, environ !! main.OPENAI_API_KEY = Some v ->
             main.load_api_key environ = Return environ) /\
  (environ !! main.OPENAI_API_KEY = None ->
   main.load_api_key environ = Raise (Exn TypeError "str expected, not NoneType")).
Proof.
  unfold main.load_api_key, main.environ_setitem. split.
  - intros v Hv. rewrite Hv. simpl.
    destruct (String.eqb v ""); [|done]. by rewrite insert_id.
  - intros Hnone. by rewrite Hnone.
Qed.

Lemma join_contains (sep x : string) (items : list string) :
  In x items -> str.contains x (main.join sep items) = true.
Proof.
  induction items as [|y items IH]; [done|].
  intros [-> | Hin].
  - destruct items as [|z items]; simpl.
    + rewrite <- (append_nil_r x) at 2. apply (contains_append x "" "").
    + apply (contains_append x "").
  - destruct items as [|z items]; [done|].
    change (main.join sep (y :: z :: items))
      with (y +:+ sep +:+ main.join sep (z :: items)).
    rewrite <- append_assoc, <- (append_nil_r (main.join sep (z :: items))).
    apply contains_inside. by apply IH.
Qed.

Lemma join_empty (sep : string) (items : list string) :
  Forall (fun x => x <> "") items -> main.join sep items = "" -> items = [].
Proof.
  intros Hne. destruct Hne as [|x items Hx Hrest]; [done|].
  destruct items as [|y items]; simpl.
  - done.
  - destruct x; [done|]. by rewrite append_cons.
Qed.

(** X14: the preview shows every sheet: for each sheet of the workbook,
    the preview contains its heading line with its name, followed by the
    head of the sheet; and the preview is empty only for a workbook with
    no sheet. *)
Theorem X14_preview_shows_every_sheet {F : Type} (head_markdown : F -> string)
    (data : list (string * F)) :
  (forall sheet_name df, In (sheet_name, df) data ->
     str.contains ("### Sheet: " +:+ sheet_name +:+ main.newline +:+ head_markdown df)
                  (main.all_sheets_preview head_markdown data) = true) /\
  (main.all_sheets_preview head_markdown data = "" <-> data = []).
Proof.
  unfold main.all_sheets_preview, main.preview_snippets. split.
  - intros sheet_name df Hin. apply join_contains.
    apply in_map_iff. by exists (sheet_name, df).
  - split; [|by intros ->].
    intros He. apply join_empty in He.
    + by destruct data.
    + apply Forall_forall. intros x Hx%list_elem_of_In.
      apply in_map_iff in Hx as [item [<- _]].
      unfold main.snippet. by rewrite append_cons.
Qed.

Lemma nonempty_length (q : string) : q <> "" -> (0 <? String.length q)%nat = true.
Proof. by destruct q. Qed.

(** Queries that are not empty and on which the agent raises nothing but
    exceptions of class [Exception] are gone through one per turn. *)
Lemma main_loop_prefix {A : Type} (agent : string -> A -> result string * A)
    (queries : list string) :
  Forall (fun q => q <> "") queries ->
  (forall q m e m', In q queries -> agent q m = (Raise e, m') ->
                    isinstance e Exception = true) ->
  forall turns rest out m,
    main.main_loop agent (length queries + turns)
      (main.mkConsole (queries ++ rest) out m) =
    main.main_loop agent turns
      (main.mkConsole rest (out ++ main.transcript agent queries m)
                      (main.memory_after agent queries m)).
Proof.
  induction queries as [|q queries IH]; intros Hne Hexc turns rest out m.
  - simpl. by rewrite app_nil_r.
  - apply Forall_cons in Hne as [Hq Hne].
    assert (forall q0 m0 e m', In q0 queries -> agent q0 m0 = (Raise e, m') ->
                               isinstance e Exception = true) as Hexc'.
    { intros q0 m0 e m' Hin. apply Hexc. by right. }
    simpl. rewrite (nonempty_length q Hq).
    destruct (agent q m) as [[output|e] m'] eqn:Hag; simpl.
    + unfold main.print, main.write. simpl.
      rewrite (IH Hne Hexc'). by rewrite <- !app_assoc.
    + rewrite (Hexc q m e m' (or_introl eq_refl) Hag).
      unfold main.print, main.write. simpl.
      rewrite (IH Hne Hexc'). by rewrite <- !app_assoc.
Qed.

(** X15: the loop ends at the first empty line.  With non-empty queries
    before it, on which the agent raises nothing but exceptions of class
    [Exception], and turns enough, the loop finishes: the agent has been
    asked each of these queries once, in order; for each one a line was
    printed, the answer or the error; the lines after the empty one have
    not been read. *)
Theorem X15_loop_ends_at_first_empty_line {A : Type}
    (agent : string -> A -> result string * A)
    (queries rest out : list string) (m : A) (turns : nat) :
  Forall (fun q => q <> "") queries ->
  (forall q m e m', In q queries -> agent q m = (Raise e, m') ->
                    isinstance e Exception = true) ->
  length queries < turns ->
  main.main_loop agent turns (main.mkConsole (queries ++ "" :: rest) out m) =
  (main.Finished,
   main.mkConsole rest
     (out ++ main.transcript agent queries m ++
      [main.query_prompt; "Process finished." +:+ main.newline])
     (main.memory_after agent queries m)).
Proof.
  intros Hne Hexc Hturns.
  replace turns with (length queries + S (turns - length queries - 1)) by lia.
  rewrite main_loop_prefix by done. simpl.
  unfold main.print, main.write. simpl. by rewrite <- !app_assoc.
Qed.

Lemma X15_loop_ends_at_first_empty_line_witness :
  main.main_loop main.parrot 5 (main.mkConsole ["hello"; "boom"; ""; "ignored"] [] 0) =
  (main.Finished,
   main.mkConsole ["ignored"]
     [main.query_prompt; "hello!" +:+ main.newline;
      main.query_prompt;
      main.newline +:+ "Error during execution: 'output'" +:+ main.newline;
      main.query_prompt; "Process finished." +:+ main.newline]
     2).
Proof.
  apply (X15_loop_ends_at_first_empty_line main.parrot ["hello"; "boom"] ["ignored"] [] 0 5).
  - repeat constructor; done.
  - intros q m e m' [<- | [<- | []]]; vm_compute; by intros [= <- _].
  - simpl. lia.
Defined.

(** X16: without an empty line the loop does not end.  If no line left on
    the standard input is empty and the agent raises nothing but
    exceptions of class [Exception], the loop is still running after any
    number of turns; once the input is used up, every turn writes the
    prompt and the error of [input()] at the end of the input. *)
Theorem X16_loop_does_not_end_without_empty_line {A : Type}
    (agent : string -> A -> result string * A) (turns : nat) (c : main.console A) :
  Forall (fun q => q <> "") (main.stdin c) ->
  (forall q m e m', agent q m = (Raise e, m') -> isinstance e Exception = true) ->
  fst (main.main_loop agent turns c) = main.Running /\
  (main.stdin c = [] ->
   main.main_loop agent turns c =
   (main.Running,
    main.mkConsole []
      (main.stdout c ++
       concat (replicate turns
         [main.query_prompt;
          main.newline +:+ "Error during execution: EOF when reading a line" +:+ main.newline]))
      (main.memory c))).
Proof.
  intros Hne Hexc. split.
  - revert c Hne. induction turns as [|turns IH]; intros c Hne; [done|].
    simpl. destruct (main.stdin c) as [|q rest] eqn:Hin.
    + apply IH. simpl. by rewrite Hin.
    + apply Forall_cons in Hne as [Hq Hne]. rewrite (nonempty_length q Hq).
      destruct (agent q (main.memory c)) as [[output|e] m'] eqn:Hag; simpl.
      * by apply IH.
      * rewrite (Hexc _ _ _ _ Hag). by apply IH.
  - clear Hne. revert c. induction turns as [|turns IH]; intros c Hin.
    + simpl. rewrite app_nil_r. destruct c. simpl in Hin. by subst.
    + simpl. rewrite Hin. rewrite IH by (simpl; by rewrite Hin).
      unfold main.print, main.write. simpl.
      rewrite <- !app_assoc. reflexivity.
Qed.

Lemma X16_loop_does_not_end_without_empty_line_witness :
  main.main_loop (fun q (m : nat) => (Return q, m)) 2 (main.mkConsole [] [] 0) =
  (main.Running,
   main.mkConsole []
     [main.query_prompt;
      main.newline +:+ "Error during execution: EOF when reading a line" +:+ main.newline;
      main.query_prompt;
      main.newline +:+ "Error during execution: EOF when reading a line" +:+ main.newline]
     0).
Proof.
  refine (proj2 (X16_loop_does_not_end_without_empty_line
                   (fun q (m : nat) => (Return q, m)) 2 (main.mkConsole [] [] 0) _ _) _).
  - constructor.
  - intros q m e m' [=].
  - reflexivity.
Defined.

(** X17: an exception of the agent that is not of class [Exception] ends
    the loop there: after non-empty queries that went well, a non-empty
    query on which the agent raises such an exception leaves the loop
    with that exception; the prompt was written, nothing is printed for
    the query, and the lines after it have not been read. *)
Theorem X17_loop_left_by_other_exception {A : Type}
    (agent : string -> A -> result string * A)
    (queries rest out : list string) (q : string) (e : exn) (m m' : A) (turns : nat) :
  Forall (fun q => q <> "") queries ->
  (forall q m e m', In q queries -> agent q m = (Raise e, m') ->
                    isinstance e Exception = true) ->
  q <> "" ->
  agent q (main.memory_after agent queries m) = (Raise e, m') ->
  isinstance e Exception = false ->
  length queries < turns ->
  main.main_loop agent turns (main.mkConsole (queries ++ q :: rest) out m) =
  (main.Crashed e,
   main.mkConsole rest (out ++ main.transcript agent queries m ++ [main.query_prompt]) m').
Proof.
  intros Hne Hexc Hq Hag He Hturns.
  replace turns with (length queries + S (turns - length queries - 1)) by lia.
  rewrite main_loop_prefix by done. simpl.
  rewrite (nonempty_length q Hq), Hag, He.
  unfold main.write. simpl. by rewrite <- !app_assoc.
Qed.

Lemma X17_loop_left_by_other_exception_witness :
  main.main_loop main.parrot 9 (main.mkConsole ["hello"; "stop"; "next"] [] 0) =
  (main.Crashed (Exn KeyboardInterrupt ""),
   main.mkConsole ["next"]
     [main.query_prompt; "hello!" +:+ main.newline; main.query_prompt] 2).
Proof.
  apply (X17_loop_left_by_other_exception main.parrot ["hello"] ["next"] [] "stop"
           (Exn KeyboardInterrupt "") 0 2 9).
  - repeat constructor; done.
  - intros q m e m' [<- | []]; vm_compute; by intros [= <- _].
  - done.
  - reflexivity.
  - reflexivity.
  - simpl. lia.
Defined.
